(** * Domain-monitor reporting agents (slot603.js): a shallow embedding

    The source file holds two browser scripts, one per brand.  Each is an
    immediately-invoked function closing over a constant [CONFIG] and
    defining [getCurrentDomain], [generateReportData], [sendReport] and
    [executeAgent], followed by the registration of [executeAgent] with the
    page-load event and with a recurring timer.

    The embedding has four layers:
    - the pieces of the JavaScript platform the code calls
      ([Date.prototype.toISOString], [JSON.stringify], template literals);
    - the data the code builds (configuration, report record, request);
    - a small inductive monad of programs that perform browser events and
      may throw, with [try_catch], and its trace semantics against an
      arbitrary environment;
    - the two agents, each translated from its own copy of the code, and a
      model of the page's event registry and timers for the top-level
      statements.

    Conventions.  [await fetch(url, init)] is one event whose answer is the
    way the promise settles; a promise that never settles is not an answer.
    An environment is any function from events and its own state to
    answers, so a statement proved for every environment holds for every
    clock, host name and server behaviour.  The page keeps a nominal clock:
    a timer fires at the time it is due. *)

From Stdlib Require Import String Ascii ZArith List Lia Bool.
Import ListNotations.
Local Open Scope string_scope.
Local Open Scope Z_scope.

(** ** JavaScript platform functions *)

Module JS.

(** Strings are sequences of code units; the code units that occur here
    (configuration literals, host names, timestamps) are below 256. *)

(** The character of a decimal digit. *)
Definition digit (d : Z) : ascii := ascii_of_nat (48 + Z.to_nat d).

(** Decimal digits of [n], zero-padded on the left to [width] characters. *)
Fixpoint pad (width : nat) (n : Z) : string :=
  match width with
  | O => EmptyString
  | S w => pad w (n / 10) ++ String (digit (n mod 10)) EmptyString
  end.

(** Time values are milliseconds since 1970-01-01T00:00:00Z; the
    following split one into its day and the time within the day. *)
Definition msPerDay : Z := 86400000.
Definition Day (t : Z) : Z := t / msPerDay.
Definition TimeWithinDay (t : Z) : Z := t mod msPerDay.
Definition HourFromTime (t : Z) : Z := (TimeWithinDay t / 3600000) mod 24.
Definition MinFromTime (t : Z) : Z := (TimeWithinDay t / 60000) mod 60.
Definition SecFromTime (t : Z) : Z := (TimeWithinDay t / 1000) mod 60.
Definition msFromTime (t : Z) : Z := TimeWithinDay t mod 1000.

(** Proleptic Gregorian date of a day number counted from 1970-01-01:
    (year, month 1..12, day of month 1..31).  Years are counted from
    March inside a 400-year era of 146097 days. *)
Definition civil (days : Z) : Z * Z * Z :=
  let z := days + 719468 in
  let era := z / 146097 in
  let doe := z mod 146097 in
  let yoe := (doe - doe / 1460 + doe / 36524 - doe / 146096) / 365 in
  let doy := doe - (365 * yoe + yoe / 4 - yoe / 100) in
  let mp := (5 * doy + 2) / 153 in
  let d := doy - (153 * mp + 2) / 5 + 1 in
  let m := if mp <? 10 then mp + 3 else mp - 9 in
  let y := yoe + era * 400 + (if m <=? 2 then 1 else 0) in
  (y, m, d).

Definition YearFromTime (t : Z) : Z := fst (fst (civil (Day t))).
Definition MonthFromTime (t : Z) : Z := snd (fst (civil (Day t))).
Definition DateFromTime (t : Z) : Z := snd (civil (Day t)).

(** Four digits for years 0..9999, otherwise a sign and six digits. *)
Definition isoYear (y : Z) : string :=
  if (0 <=? y) && (y <=? 9999) then pad 4 y
  else if y <? 0 then "-" ++ pad 6 (- y)
  else "+" ++ pad 6 y.

(** [Date.prototype.toISOString] of a date whose time value is [t]
    milliseconds since the epoch: [YYYY-MM-DDTHH:mm:ss.sssZ], in UTC. *)
Definition toISOString (t : Z) : string :=
  isoYear (YearFromTime t) ++ "-" ++ pad 2 (MonthFromTime t) ++ "-"
    ++ pad 2 (DateFromTime t) ++ "T" ++ pad 2 (HourFromTime t) ++ ":"
    ++ pad 2 (MinFromTime t) ++ ":" ++ pad 2 (SecFromTime t) ++ "."
    ++ pad 3 (msFromTime t) ++ "Z".

(** Reading a timestamp back (the date-time format of [Date.parse]). *)

Definition isDigit (c : ascii) : bool :=
  (48 <=? nat_of_ascii c)%nat && (nat_of_ascii c <=? 57)%nat.

Definition digitValue (c : ascii) : Z := Z.of_nat (nat_of_ascii c) - 48.

(** Exactly [k] decimal digits at the head of [s]: their value, added to
    [acc] shifted left, and the rest of the string. *)
Fixpoint takeDigits (k : nat) (acc : Z) (s : string) : option (Z * string) :=
  match k with
  | O => Some (acc, s)
  | S k' =>
      match s with
      | String c rest =>
          if isDigit c then takeDigits k' (10 * acc + digitValue c) rest else None
      | EmptyString => None
      end
  end.

(** The character [c] at the head of [s]: the rest of the string. *)
Definition expect (c : ascii) (s : string) : option string :=
  match s with
  | String c' rest => if Ascii.eqb c' c then Some rest else None
  | EmptyString => None
  end.

(** Day number of a proleptic Gregorian date, month 1..12. *)
Definition daysFromCivil (y m d : Z) : Z :=
  let y' := if m <=? 2 then y - 1 else y in
  let era := y' / 400 in
  let yoe := y' mod 400 in
  let mp := if m <=? 2 then m + 9 else m - 3 in
  let doy := (153 * mp + 2) / 5 + d - 1 in
  let doe := yoe * 365 + yoe / 4 - yoe / 100 + doy in
  era * 146097 + doe - 719468.

(** Milliseconds into the day. *)
Definition MakeTime (h mi s ms : Z) : Z := h * 3600000 + mi * 60000 + s * 1000 + ms.

(** A year: six digits after a sign, or four digits. *)
Definition parseYear (s : string) : option (Z * string) :=
  match s with
  | String "+" rest => takeDigits 6 0 rest
  | String "-" rest =>
      match takeDigits 6 0 rest with
      | Some (y, rest') => Some (- y, rest')
      | None => None
      end
  | _ => takeDigits 4 0 s
  end.

Definition andThen {A B : Type} (o : option A) (k : A -> option B) : option B :=
  match o with
  | Some a => k a
  | None => None
  end.

Notation "'read' x <-- o ; k" := (andThen o (fun x => k))
  (at level 10, x pattern, o at level 100, k at level 200, only parsing).

(** The format [toISOString] writes: a year of four digits, or of six
    digits with a sign, then -MM-DDTHH:mm:ss.sssZ. *)
Definition parseISO (s : string) : option Z :=
  read (y, s) <-- parseYear s ;
  read s <-- expect "-" s ;
  read (m, s) <-- takeDigits 2 0 s ;
  read s <-- expect "-" s ;
  read (d, s) <-- takeDigits 2 0 s ;
  read s <-- expect "T" s ;
  read (h, s) <-- takeDigits 2 0 s ;
  read s <-- expect ":" s ;
  read (mi, s) <-- takeDigits 2 0 s ;
  read s <-- expect ":" s ;
  read (sec, s) <-- takeDigits 2 0 s ;
  read s <-- expect "." s ;
  read (ms, s) <-- takeDigits 3 0 s ;
  read s <-- expect "Z" s ;
  match s with
  | EmptyString =>
      if (1 <=? m) && (m <=? 12) && (1 <=? d) && (d <=? 31)
         && (h <? 24) && (mi <? 60) && (sec <? 60)
      then Some (daysFromCivil y m d * msPerDay + MakeTime h mi sec ms)
      else None
  | _ => None
  end.

(** Lower-case hexadecimal digit, for [\u00XX] escapes. *)
Definition hexDigit (d : Z) : ascii :=
  if d <? 10 then digit d else ascii_of_nat (87 + Z.to_nat d).

Definition quoteChar : ascii := "034"%char.
Definition backslash : ascii := "092"%char.

(** One code unit inside a JSON string literal (QuoteJSONString). *)
Definition quoteJSONUnit (c : ascii) : string :=
  let n := Z.of_nat (nat_of_ascii c) in
  if n =? 8 then String backslash "b"
  else if n =? 9 then String backslash "t"
  else if n =? 10 then String backslash "n"
  else if n =? 12 then String backslash "f"
  else if n =? 13 then String backslash "r"
  else if n =? 34 then String backslash (String quoteChar EmptyString)
  else if n =? 92 then String backslash (String backslash EmptyString)
  else if n <? 32 then
    String backslash
      ("u00" ++ String (hexDigit (n / 16)) (String (hexDigit (n mod 16)) EmptyString))
  else String c EmptyString.

Fixpoint quoteJSONBody (s : string) : string :=
  match s with
  | EmptyString => EmptyString
  | String c rest => quoteJSONUnit c ++ quoteJSONBody rest
  end.

Definition QuoteJSONString (s : string) : string :=
  String quoteChar (quoteJSONBody s ++ String quoteChar EmptyString).

(** [JSON.stringify] of a plain object whose own properties, in
    insertion order, are [props] and whose values are all strings. *)
Fixpoint stringifyMembers (props : list (string * string)) : string :=
  match props with
  | [] => EmptyString
  | [(k, v)] => QuoteJSONString k ++ ":" ++ QuoteJSONString v
  | (k, v) :: rest =>
      QuoteJSONString k ++ ":" ++ QuoteJSONString v ++ "," ++ stringifyMembers rest
  end.

Definition stringifyObject (props : list (string * string)) : string :=
  "{" ++ stringifyMembers props ++ "}".

(** Reading a JSON string literal back ([JSON.parse] on a string). *)

(** Value of a hexadecimal digit, in either case. *)
Definition hexValue (c : ascii) : option Z :=
  let n := Z.of_nat (nat_of_ascii c) in
  if (48 <=? n) && (n <=? 57) then Some (n - 48)
  else if (97 <=? n) && (n <=? 102) then Some (n - 87)
  else if (65 <=? n) && (n <=? 70) then Some (n - 55)
  else None.

(** The code unit numbered [n]. *)
Definition unitOfZ (n : Z) : ascii := ascii_of_nat (Z.to_nat n).

(** The character an escape letter stands for. *)
Definition unescape (e : ascii) : option ascii :=
  let n := Z.of_nat (nat_of_ascii e) in
  if n =? 98 then Some (unitOfZ 8)
  else if n =? 116 then Some (unitOfZ 9)
  else if n =? 110 then Some (unitOfZ 10)
  else if n =? 102 then Some (unitOfZ 12)
  else if n =? 114 then Some (unitOfZ 13)
  else if n =? 34 then Some (unitOfZ 34)
  else if n =? 92 then Some (unitOfZ 92)
  else if n =? 47 then Some (unitOfZ 47)
  else None.

(** Reads a JSON string literal from just after its opening quote: the
    string it denotes and what follows the closing quote. *)
Fixpoint readJSONString (s : string) : option (string * string) :=
  match s with
  | EmptyString => None
  | String c rest =>
      if Ascii.eqb c quoteChar then Some (EmptyString, rest)
      else if Ascii.eqb c backslash then
        match rest with
        | String "u" (String h1 (String h2 (String h3 (String h4 rest')))) =>
            match hexValue h1, hexValue h2, hexValue h3, hexValue h4 with
            | Some 0, Some 0, Some a, Some b =>
                match readJSONString rest' with
                | Some (content, after) => Some (String (unitOfZ (16 * a + b)) content, after)
                | None => None
                end
            | _, _, _, _ => None
            end
        | String e rest' =>
            match unescape e, readJSONString rest' with
            | Some c', Some (content, after) => Some (String c' content, after)
            | _, _ => None
            end
        | EmptyString => None
        end
      else if (nat_of_ascii c <? 32)%nat then None
      else
        match readJSONString rest with
        | Some (content, after) => Some (String c content, after)
        | None => None
        end
  end.

End JS.

(** ** Data model *)

(** The [CONFIG] object literal of an agent. *)
Record Config : Type := {
  brand : string;
  apiKey : string;
  apiUrl : string;
  localApiUrl : string;
  expired : string;
  status : string;
  kategori : string
}.

(** The object literal returned by [generateReportData]. *)
Module ReportData.
Record t : Type := {
  brand : string;
  domain : string;
  expired : string;
  status : string;
  kategori : string;
  catatan : string;
  api_key : string
}.

(** Own properties in insertion order, as [JSON.stringify] visits them. *)
Definition properties (r : t) : list (string * string) :=
  [("brand", brand r); ("domain", domain r); ("expired", expired r);
   ("status", status r); ("kategori", kategori r);
   ("catatan", catatan r); ("api_key", api_key r)].
End ReportData.

(** [JSON.stringify(data)] *)
Definition JSON_stringify (data : ReportData.t) : string :=
  JS.stringifyObject (ReportData.properties data).

(** The second argument of [fetch]. *)
Module RequestInit.
Record t : Type := {
  method : string;
  headers : list (string * string);
  body : string
}.
End RequestInit.

(** What a fulfilled [fetch] carries: the [ok] flag, the numeric status
    and the payload the server sent. *)
Module Response.
Record t : Type := {
  ok : bool;
  status : Z;
  payload : string
}.
End Response.

(** A thrown value (the reason of a rejected promise), as its message. *)
Definition JSError : Type := string.

(** How the promise returned by [fetch] settles. *)
Inductive FetchOutcome : Type :=
| Fulfilled (response : Response.t)
| Rejected (reason : JSError).

Inductive ConsoleLevel : Type := Log | Warn | Error.

(** Values passed to the console after the message. *)
Inductive JSValue : Type :=
| VObject (data : ReportData.t)
| VNumber (n : Z)
| VError (error : JSError).

(** ** Programs *)

(** The browser facilities the agent touches.  The index is the type of
    the answer the environment gives. *)
Variant agentE : Type -> Type :=
| LocationHostname : agentE string
    (* window.location.hostname *)
| NewDate : agentE Z
    (* new Date(): the time value, milliseconds since the epoch *)
| Fetch (url : string) (init : RequestInit.t) : agentE FetchOutcome
    (* await fetch(url, init): how the returned promise settles *)
| Console (level : ConsoleLevel) (message : string) (args : list JSValue) : agentE unit.
    (* console.log / console.warn / console.error *)

(** A program returns, throws, or performs an event and continues with
    the environment's answer. *)
Inductive Prog (A : Type) : Type :=
| Ret (a : A)
| Throw (e : JSError)
| Vis (X : Type) (ev : agentE X) (k : X -> Prog A).

Arguments Ret {A} a.
Arguments Throw {A} e.
Arguments Vis {A X} ev k.

(** [p] then [f]; what [p] throws passes through. *)
Fixpoint bind {A B : Type} (p : Prog A) (f : A -> Prog B) : Prog B :=
  match p with
  | Ret a => f a
  | Throw e => Throw e
  | Vis ev k => Vis ev (fun x => bind (k x) f)
  end.

(** [try { body } catch (error) { handler error }] *)
Fixpoint try_catch {A : Type} (body : Prog A) (handler : JSError -> Prog A) : Prog A :=
  match body with
  | Ret a => Ret a
  | Throw e => handler e
  | Vis ev k => Vis ev (fun x => try_catch (k x) handler)
  end.

(** One event, returning the answer. *)
Definition trigger {X : Type} (ev : agentE X) : Prog X := Vis ev (fun x => Ret x).

Declare Scope prog_scope.
Delimit Scope prog_scope with prog.
Bind Scope prog_scope with Prog.
Notation "x <- c1 ;; c2" := (bind c1 (fun x => c2))
  (at level 61, c1 at next level, right associativity) : prog_scope.
Notation "c1 ;; c2" := (bind c1 (fun _ => c2))
  (at level 61, right associativity) : prog_scope.
Local Open Scope prog_scope.

(** [await fetch(url, init)]: a rejection is thrown at the [await]. *)
Definition await_fetch (url : string) (init : RequestInit.t) : Prog Response.t :=
  outcome <- trigger (Fetch url init) ;;
  match outcome with
  | Fulfilled response => Ret response
  | Rejected reason => Throw reason
  end.

(** [console.log], [console.warn] and [console.error]. *)
Definition console_log (message : string) (args : list JSValue) : Prog unit :=
  trigger (Console Log message args).
Definition console_warn (message : string) (args : list JSValue) : Prog unit :=
  trigger (Console Warn message args).
Definition console_error (message : string) (args : list JSValue) : Prog unit :=
  trigger (Console Error message args).

(** ** Running a program against an environment *)

(** An environment answers every event from its own state [W], which it
    may change as it likes (the clock advances, servers go down, ...). *)
Definition Env (W : Type) : Type := forall X : Type, agentE X -> W -> X * W.

(** One entry of the observable history: an event with its answer. *)
Inductive Item : Type :=
| Item_hostname (answer : string)
| Item_date (timeValue : Z)
| Item_fetch (url : string) (init : RequestInit.t) (outcome : FetchOutcome)
| Item_console (level : ConsoleLevel) (message : string) (args : list JSValue).

(** The entry an event leaves, given its answer. *)
Definition item_of {X : Type} (ev : agentE X) : X -> Item :=
  match ev in agentE X0 return X0 -> Item with
  | LocationHostname => fun answer => Item_hostname answer
  | NewDate => fun t => Item_date t
  | Fetch url init => fun outcome => Item_fetch url init outcome
  | Console level message args => fun _ => Item_console level message args
  end.

(** How a call ends: with a value, or with an exception nobody caught. *)
Inductive Completion (A : Type) : Type :=
| Normal (a : A)
| Uncaught (e : JSError).
Arguments Normal {A} a.
Arguments Uncaught {A} e.

(** The result of a run. *)
Record Run (A W : Type) : Type := {
  completion : Completion A;
  world : W;
  trace : list Item
}.
Arguments completion {A W} r.
Arguments world {A W} r.
Arguments trace {A W} r.

(** The run of [p] from state [w]: how it completes, the state it leaves
    and the events it performed, in order, with their answers. *)
Fixpoint run {A W : Type} (env : Env W) (p : Prog A) (w : W) : Run A W :=
  match p with
  | Ret a => {| completion := Normal a; world := w; trace := [] |}
  | Throw e => {| completion := Uncaught e; world := w; trace := [] |}
  | Vis ev k =>
      let (x, w') := env _ ev w in
      let r := run env (k x) w' in
      {| completion := completion r; world := world r;
         trace := item_of ev x :: trace r |}
  end.

(** ** The page: listeners, timers and started calls *)

(** A function handed to the page, or called by the script itself. *)
Definition Callback : Type := Prog unit.

Record Timer : Type := {
  timer_id : Z;
  timer_handler : Callback;
  timer_timeout : Z;  (* the delay given to setInterval, in milliseconds *)
  timer_due : Z       (* when it fires next *)
}.

(** Why a call began. *)
Inductive Cause : Type :=
| ByScript                  (* called by the script's own statements *)
| ByEvent (type : string)   (* called as a listener of an event *)
| ByTimer (id : Z).         (* called by an interval timer *)

Record Start : Type := {
  start_time : Z;
  start_cause : Cause;
  start_callback : Callback
}.

Record Page : Type := {
  readyState : string;                     (* document.readyState *)
  clock : Z;                               (* current time, milliseconds *)
  listeners : list (string * Callback);    (* document's event listeners *)
  timers : list Timer;                     (* active interval timers *)
  next_timer_id : Z;
  started : list Start                     (* calls begun so far, oldest first *)
}.

(** [f()] for an async function: the call begins now; the promise it
    returns is dropped by the caller. *)
Definition call (f : Callback) (pg : Page) : Page :=
  {| readyState := readyState pg; clock := clock pg; listeners := listeners pg;
     timers := timers pg; next_timer_id := next_timer_id pg;
     started :=
       (started pg ++
        [{| start_time := clock pg; start_cause := ByScript; start_callback := f |}])%list |}.

(** [document.addEventListener(type, listener)] *)
Definition addEventListener (type : string) (listener : Callback) (pg : Page) : Page :=
  {| readyState := readyState pg; clock := clock pg;
     listeners := (listeners pg ++ [(type, listener)])%list;
     timers := timers pg; next_timer_id := next_timer_id pg;
     started := started pg |}.

(** [setInterval(handler, timeout)]: returns the new timer's id. *)
Definition setInterval (handler : Callback) (timeout : Z) (pg : Page) : Z * Page :=
  (next_timer_id pg,
   {| readyState := readyState pg; clock := clock pg; listeners := listeners pg;
      timers := (timers pg ++
                 [{| timer_id := next_timer_id pg; timer_handler := handler;
                     timer_timeout := timeout;
                     timer_due := clock pg + timeout |}])%list;
      next_timer_id := next_timer_id pg + 1;
      started := started pg |}).

(** [clearInterval(id)]; no agent calls it. *)
Definition clearInterval (id : Z) (pg : Page) : Page :=
  {| readyState := readyState pg; clock := clock pg; listeners := listeners pg;
     timers := filter (fun tm => negb (timer_id tm =? id)) (timers pg);
     next_timer_id := next_timer_id pg;
     started := started pg |}.

(** The browser finishes parsing at time [t]: the document leaves the
    loading state and the DOMContentLoaded listeners are called in order.
    This happens once; afterwards the document is no longer loading. *)
Definition contentLoaded (t : Z) (pg : Page) : Page :=
  if (readyState pg =? "loading")%string then
    {| readyState := "interactive"; clock := t; listeners := listeners pg;
       timers := timers pg; next_timer_id := next_timer_id pg;
       started :=
         (started pg ++
          map (fun l => {| start_time := t; start_cause := ByEvent "DOMContentLoaded";
                           start_callback := snd l |})
              (filter (fun l => (fst l =? "DOMContentLoaded")%string) (listeners pg)))%list |}
  else pg.

(** The timer that fires next: the one with the least due time, the
    earliest registered among equals. *)
Fixpoint earliest (tms : list Timer) : option Timer :=
  match tms with
  | [] => None
  | tm :: rest =>
      match earliest rest with
      | Some tm' => if timer_due tm' <? timer_due tm then Some tm' else Some tm
      | None => Some tm
      end
  end.

Definition reschedule (id : Z) (tm : Timer) : Timer :=
  if timer_id tm =? id then
    {| timer_id := timer_id tm; timer_handler := timer_handler tm;
       timer_timeout := timer_timeout tm;
       timer_due := timer_due tm + timer_timeout tm |}
  else tm.

(** The browser lets time pass until the next timer is due, calls its
    handler and schedules it again one timeout later. *)
Definition fire (pg : Page) : Page :=
  match earliest (timers pg) with
  | None => pg
  | Some tm =>
      {| readyState := readyState pg; clock := timer_due tm;
         listeners := listeners pg;
         timers := map (reschedule (timer_id tm)) (timers pg);
         next_timer_id := next_timer_id pg;
         started :=
           (started pg ++
            [{| start_time := timer_due tm; start_cause := ByTimer (timer_id tm);
                start_callback := timer_handler tm |}])%list |}
  end.

(** What the browser does to a page once the script has run. *)
Inductive Move : Type :=
| Fire               (* the next timer comes due *)
| Loaded (t : Z).    (* parsing ends at time [t] *)

(** One move, and a sequence of moves from left to right. *)
Definition move (pg : Page) (m : Move) : Page :=
  match m with
  | Fire => fire pg
  | Loaded t => contentLoaded t pg
  end.

Definition play (ms : list Move) (pg : Page) : Page := fold_left move ms pg.

(** Number of timer firings among the moves. *)
Fixpoint fires (ms : list Move) : nat :=
  match ms with
  | [] => O
  | Fire :: rest => S (fires rest)
  | Loaded _ :: rest => fires rest
  end.

(** Time of the first end-of-parsing among the moves, if any. *)
Fixpoint first_loaded (ms : list Move) : option Z :=
  match ms with
  | [] => None
  | Loaded t :: _ => Some t
  | Fire :: rest => first_loaded rest
  end.

(** Calls made by some timer. *)
Definition by_timer (s : Start) : bool :=
  match start_cause s with ByTimer _ => true | _ => false end.

(** Calls made by the timer [id]. *)
Definition caused_by (id : Z) (s : Start) : bool :=
  match start_cause s with
  | ByTimer i => i =? id
  | _ => false
  end.

(** The id the next [setInterval] returns is not in use on the page. *)
Definition fresh_timer_id (pg : Page) : Prop :=
  Forall (fun tm => timer_id tm <> next_timer_id pg) (timers pg) /\
  filter (caused_by (next_timer_id pg)) (started pg) = [].

(** A page on which nothing has been registered or called yet. *)
Definition blank (state : string) (t : Z) : Page :=
  {| readyState := state; clock := t; listeners := []; timers := [];
     next_timer_id := 1; started := [] |}.

(** ** The slot603 agent (first function of the file) *)

Module Slot603.

(* const CONFIG = { ... } *)
Definition CONFIG : Config := {|
  brand := "slot603";
  apiKey := "SLOT603-KEY";
  apiUrl := "https://www.dewipemikat.com/api/report";
  localApiUrl := "http://localhost:8000/api/report";
  expired := "2025-08-01";
  status := "aktif";
  kategori := "normal"
|}.

Section Closure.
(** The functions below read [CONFIG] as a free variable of their
    closure; here it is a variable, instantiated afterwards. *)
Variable CONFIG : Config.

Definition getCurrentDomain : Prog string :=
  trigger LocationHostname.

Definition generateReportData : Prog ReportData.t :=
  domain <- getCurrentDomain ;;
  now <- trigger NewDate ;;
  Ret {| ReportData.brand := brand CONFIG;
         ReportData.domain := domain;
         ReportData.expired := expired CONFIG;
         ReportData.status := status CONFIG;
         ReportData.kategori := kategori CONFIG;
         ReportData.catatan := "Report from JS Agent - " ++ JS.toISOString now;
         ReportData.api_key := apiKey CONFIG |}.

Definition sendReport (data : ReportData.t) (apiUrl : string) : Prog bool :=
  try_catch
    (response <- await_fetch apiUrl
                   {| RequestInit.method := "POST";
                      RequestInit.headers :=
                        [("Content-Type", "application/json");
                         ("User-Agent", "DomainMonitor-Agent/1.0")];
                      RequestInit.body := JSON_stringify data |} ;;
     if Response.ok response then
       console_log ("[" ++ brand CONFIG ++ "] Report sent successfully to " ++ apiUrl) [] ;;
       Ret true
     else
       console_warn ("[" ++ brand CONFIG ++ "] Failed to send report to " ++ apiUrl ++ ":")
                    [VNumber (Response.status response)] ;;
       Ret false)
    (fun error =>
       console_error ("[" ++ brand CONFIG ++ "] Error sending report to " ++ apiUrl ++ ":")
                     [VError error] ;;
       Ret false).

Definition executeAgent : Prog unit :=
  console_log ("[" ++ brand CONFIG ++ "] Domain Monitor Agent starting...") [] ;;
  reportData <- generateReportData ;;
  console_log ("[" ++ brand CONFIG ++ "] Generated report data:") [VObject reportData] ;;
  success <- sendReport reportData (apiUrl CONFIG) ;;
  success <- (if negb success then
                console_log ("[" ++ brand CONFIG ++ "] Trying local API as fallback...") [] ;;
                sendReport reportData (localApiUrl CONFIG)
              else Ret success) ;;
  if success then
    console_log ("[" ++ brand CONFIG ++ "] Domain monitoring report completed successfully") []
  else
    console_error ("[" ++ brand CONFIG ++ "] Failed to send report to any API endpoint") [].

(** The statements after the function declarations. *)
Definition main (pg : Page) : Page :=
  let pg :=
    if (readyState pg =? "loading")%string then
      addEventListener "DOMContentLoaded" executeAgent pg
    else
      call executeAgent pg in
  snd (setInterval executeAgent (30 * 60 * 1000) pg).

End Closure.

End Slot603.

(** ** The netpro agent (second function of the file) *)

Module Netpro.

(* const CONFIG = { ... } *)
Definition CONFIG : Config := {|
  brand := "netpro";
  apiKey := "NETPRO-KEY";
  apiUrl := "https://www.dewipemikat.com/api/report";
  localApiUrl := "http://localhost:8000/api/report";
  expired := "2025-08-01";
  status := "aktif";
  kategori := "normal"
|}.

Section Closure.
Variable CONFIG : Config.

Definition getCurrentDomain : Prog string :=
  trigger LocationHostname.

Definition generateReportData : Prog ReportData.t :=
  domain <- getCurrentDomain ;;
  now <- trigger NewDate ;;
  Ret {| ReportData.brand := brand CONFIG;
         ReportData.domain := domain;
         ReportData.expired := expired CONFIG;
         ReportData.status := status CONFIG;
         ReportData.kategori := kategori CONFIG;
         ReportData.catatan := "Report from JS Agent - " ++ JS.toISOString now;
         ReportData.api_key := apiKey CONFIG |}.

Definition sendReport (data : ReportData.t) (apiUrl : string) : Prog bool :=
  try_catch
    (response <- await_fetch apiUrl
                   {| RequestInit.method := "POST";
                      RequestInit.headers :=
                        [("Content-Type", "application/json");
                         ("User-Agent", "DomainMonitor-Agent/1.0")];
                      RequestInit.body := JSON_stringify data |} ;;
     if Response.ok response then
       console_log ("[" ++ brand CONFIG ++ "] Report sent successfully to " ++ apiUrl) [] ;;
       Ret true
     else
       console_warn ("[" ++ brand CONFIG ++ "] Failed to send report to " ++ apiUrl ++ ":")
                    [VNumber (Response.status response)] ;;
       Ret false)
    (fun error =>
       console_error ("[" ++ brand CONFIG ++ "] Error sending report to " ++ apiUrl ++ ":")
                     [VError error] ;;
       Ret false).

Definition executeAgent : Prog unit :=
  console_log ("[" ++ brand CONFIG ++ "] Domain Monitor Agent starting...") [] ;;
  reportData <- generateReportData ;;
  console_log ("[" ++ brand CONFIG ++ "] Generated report data:") [VObject reportData] ;;
  success <- sendReport reportData (apiUrl CONFIG) ;;
  success <- (if negb success then
                console_log ("[" ++ brand CONFIG ++ "] Trying local API as fallback...") [] ;;
                sendReport reportData (localApiUrl CONFIG)
              else Ret success) ;;
  if success then
    console_log ("[" ++ brand CONFIG ++ "] Domain monitoring report completed successfully") []
  else
    console_error ("[" ++ brand CONFIG ++ "] Failed to send report to any API endpoint") [].

Definition main (pg : Page) : Page :=
  let pg :=
    if (readyState pg =? "loading")%string then
      addEventListener "DOMContentLoaded" executeAgent pg
    else
      call executeAgent pg in
  snd (setInterval executeAgent (30 * 60 * 1000) pg).

End Closure.

End Netpro.

(** ** A scripted environment, for running examples *)

(** A host name, a clock, and the way the coming requests end. *)
Record World : Type := {
  w_hostname : string;
  w_clock : Z;
  w_responses : list (FetchOutcome * Z)
    (* how the coming fetches settle, and how long each takes *)
}.

Definition scripted : Env World :=
  fun X ev =>
    match ev in agentE X0 return World -> X0 * World with
    | LocationHostname => fun w => (w_hostname w, w)
    | NewDate => fun w => (w_clock w, w)
    | Fetch _ _ => fun w =>
        match w_responses w with
        | [] => (Rejected "TypeError: Failed to fetch", w)
        | (outcome, dt) :: rest =>
            (outcome, {| w_hostname := w_hostname w; w_clock := w_clock w + dt;
                         w_responses := rest |})
        end
    | Console _ _ _ => fun w => (tt, w)
    end.

(** A response with status [code], ok for 200..299. *)
Definition http (code : Z) : FetchOutcome :=
  Fulfilled {| Response.ok := (200 <=? code) && (code <=? 299);
               Response.status := code; Response.payload := EmptyString |}.

(** A connection that could not be made. *)
Definition refused : FetchOutcome := Rejected "TypeError: Failed to fetch".

(** One cycle of the slot603 agent on example.com at 2025-08-01T00:00Z. *)
Definition example_world (responses : list (FetchOutcome * Z)) : World :=
  {| w_hostname := "example.com"; w_clock := 1754006400000; w_responses := responses |}.

Definition slot603_cycle (responses : list (FetchOutcome * Z)) : Run unit World :=
  run scripted (Slot603.executeAgent Slot603.CONFIG) (example_world responses).

(** ** Reading a page *)

(** The timer the agent registered on page [pg0], after [n] firings of
    its own. *)
Definition own_timer (cfg : Config) (pg0 : Page) (n : nat) : Timer :=
  {| timer_id := next_timer_id pg0;
     timer_handler := Slot603.executeAgent cfg;
     timer_timeout := 1800000;
     timer_due := clock pg0 + (Z.of_nat n + 1) * 1800000 |}.

(** The calls that timer has made after [n] firings. *)
Definition own_starts (cfg : Config) (pg0 : Page) (n : nat) : list Start :=
  map (fun k => {| start_time := clock pg0 + Z.of_nat k * 1800000;
                   start_cause := ByTimer (next_timer_id pg0);
                   start_callback := Slot603.executeAgent cfg |})
      (seq 1 n).

(** On page [pg] the timer registered on [pg0] is still active, with its
    handler and delay, has fired [n] times, and its calls are those. *)
Definition timer_kept (cfg : Config) (pg0 : Page) (n : nat) (pg : Page) : Prop :=
  (exists before after : list Timer,
      timers pg = (before ++ own_timer cfg pg0 n :: after)%list /\
      Forall (fun tm => timer_id tm <> next_timer_id pg0) before /\
      Forall (fun tm => timer_id tm <> next_timer_id pg0) after) /\
  filter (caused_by (next_timer_id pg0)) (started pg) = own_starts cfg pg0 n.

(** ** Reading a history *)

(** [sendReport]'s verdict on a settled fetch. *)
Definition succeeded (o : FetchOutcome) : bool :=
  match o with
  | Fulfilled response => Response.ok response
  | Rejected _ => false
  end.

(** A delivery attempt: one HTTP request with the way it ended. *)
Record Delivery : Type := {
  to : string;
  request : RequestInit.t;
  outcome : FetchOutcome
}.

(** The requests of a history, in order. *)
Fixpoint deliveries (tr : list Item) : list Delivery :=
  match tr with
  | [] => []
  | Item_fetch url init o :: rest =>
      {| to := url; request := init; outcome := o |} :: deliveries rest
  | _ :: rest => deliveries rest
  end.

(** Number of requests a history holds for [url]. *)
Definition calls_to (url : string) (tr : list Item) : nat :=
  length (filter (fun d => (to d =? url)%string) (deliveries tr)).

(** The host names and the time values a history read, in order. *)
Fixpoint hostname_reads (tr : list Item) : list string :=
  match tr with
  | [] => []
  | Item_hostname h :: rest => h :: hostname_reads rest
  | _ :: rest => hostname_reads rest
  end.

Fixpoint clock_reads (tr : list Item) : list Z :=
  match tr with
  | [] => []
  | Item_date t :: rest => t :: clock_reads rest
  | _ :: rest => clock_reads rest
  end.

(** Entries that only read the environment. *)
Definition is_read (i : Item) : bool :=
  match i with
  | Item_hostname _ | Item_date _ => true
  | _ => false
  end.

(** The request [sendReport] makes for a record. *)
Definition post_json (data : ReportData.t) : RequestInit.t :=
  {| RequestInit.method := "POST";
     RequestInit.headers :=
       [("Content-Type", "application/json");
        ("User-Agent", "DomainMonitor-Agent/1.0")];
     RequestInit.body := JSON_stringify data |}.

(** The two cycle-level log lines. *)
Definition cycle_succeeded (cfg : Config) : Item :=
  Item_console Log
    ("[" ++ brand cfg ++ "] Domain monitoring report completed successfully") [].

Definition cycle_failed (cfg : Config) : Item :=
  Item_console Error
    ("[" ++ brand cfg ++ "] Failed to send report to any API endpoint") [].

(** The record built from a configuration, a host name and a time value. *)
Definition report (cfg : Config) (hostname : string) (now : Z) : ReportData.t :=
  {| ReportData.brand := brand cfg;
     ReportData.domain := hostname;
     ReportData.expired := expired cfg;
     ReportData.status := status cfg;
     ReportData.kategori := kategori cfg;
     ReportData.catatan := "Report from JS Agent - " ++ JS.toISOString now;
     ReportData.api_key := apiKey cfg |}.

(** The log line that follows a request to [url] that ended as [o]. *)
Definition attempt_line (cfg : Config) (url : string) (o : FetchOutcome) : Item :=
  match o with
  | Fulfilled response =>
      if Response.ok response then
        Item_console Log
          ("[" ++ brand cfg ++ "] Report sent successfully to " ++ url) []
      else
        Item_console Warn
          ("[" ++ brand cfg ++ "] Failed to send report to " ++ url ++ ":")
          [VNumber (Response.status response)]
  | Rejected reason =>
      Item_console Error
        ("[" ++ brand cfg ++ "] Error sending report to " ++ url ++ ":")
        [VError reason]
  end.

(** What one call of [sendReport] adds to the history. *)
Definition attempt (cfg : Config) (data : ReportData.t) (url : string)
    (o : FetchOutcome) : list Item :=
  [Item_fetch url (post_json data) o; attempt_line cfg url o].

(** The history of a whole cycle in which the environment reported
    [hostname] and [now] and settled the first request as [o1] and the
    second, when there is one, as [o2]. *)
Definition cycle (cfg : Config) (hostname : string) (now : Z)
    (o1 o2 : FetchOutcome) : list Item :=
  let data := report cfg hostname now in
  ([Item_console Log ("[" ++ brand cfg ++ "] Domain Monitor Agent starting...") [];
    Item_hostname hostname;
    Item_date now;
    Item_console Log ("[" ++ brand cfg ++ "] Generated report data:") [VObject data]]
   ++ attempt cfg data (apiUrl cfg) o1
   ++ (if succeeded o1 then [cycle_succeeded cfg]
       else
         Item_console Log ("[" ++ brand cfg ++ "] Trying local API as fallback...") []
         :: attempt cfg data (localApiUrl cfg) o2
         ++ [if succeeded o2 then cycle_succeeded cfg else cycle_failed cfg]))%list.

(** ** The console, consecutive cycles, the whole file *)

(** The console calls of a history, in order. *)
Fixpoint console_lines (tr : list Item) : list (ConsoleLevel * string * list JSValue) :=
  match tr with
  | [] => []
  | Item_console level message args :: rest =>
      (level, message, args) :: console_lines rest
  | _ :: rest => console_lines rest
  end.

(** Console calls made with [console.warn] or [console.error]. *)
Definition is_alarm (i : Item) : bool :=
  match i with
  | Item_console Warn _ _ | Item_console Error _ _ => true
  | _ => false
  end.

(** The line that announces the second attempt. *)
Definition fallback_line (cfg : Config) : Item :=
  Item_console Log ("[" ++ brand cfg ++ "] Trying local API as fallback...") [].

(** The line that shows the record. *)
Definition record_line (cfg : Config) (data : ReportData.t) : Item :=
  Item_console Log ("[" ++ brand cfg ++ "] Generated report data:") [VObject data].

(** [n] calls of [p], each awaited before the next. *)
Fixpoint in_a_row (n : nat) (p : Prog unit) : Prog unit :=
  match n with
  | O => Ret tt
  | S n' => p ;; in_a_row n' p
  end.

(** What the environment told one cycle: host name, time, and the way
    its requests ended (the second is not used after a success). *)
Record Told : Type := {
  told_hostname : string;
  told_now : Z;
  told_primary : FetchOutcome;
  told_fallback : FetchOutcome
}.

(** The requests of a cycle that was told [a]. *)
Definition cycle_requests (cfg : Config) (a : Told) : list Delivery :=
  let data := report cfg (told_hostname a) (told_now a) in
  {| to := apiUrl cfg; request := post_json data; outcome := told_primary a |}
  :: (if succeeded (told_primary a) then []
      else [{| to := localApiUrl cfg; request := post_json data;
               outcome := told_fallback a |}]).

(** The source file as a whole: the slot603 function runs, then the
    netpro function, on the same page. *)
Definition slot603_js (c1 c2 : Config) (pg : Page) : Page :=
  Netpro.main c2 (Slot603.main c1 pg).

(** A call that completes normally in every environment. *)
Definition never_throws (f : Callback) : Prop :=
  forall (W : Type) (env : Env W) (w : W), completion (run env f w) = Normal tt.

(** Every function the page holds or has called satisfies [Q]. *)
Definition all_callbacks (Q : Callback -> Prop) (pg : Page) : Prop :=
  Forall (fun l => Q (snd l)) (listeners pg) /\
  Forall (fun tm => Q (timer_handler tm)) (timers pg) /\
  Forall (fun s => Q (start_callback s)) (started pg).

(** What a timer was registered with. *)
Definition registration (tm : Timer) : Z * Callback * Z :=
  (timer_id tm, timer_handler tm, timer_timeout tm).

(** Reading a JSON object of string members back ([JSON.parse]). *)
Module JSONRead.

(** Members up to the closing brace, at most [fuel] of them: the pairs
    and what follows the brace. *)
Fixpoint members (fuel : nat) (s : string) : option (list (string * string) * string) :=
  match fuel with
  | O => None
  | S fuel' =>
      match s with
      | String q s1 =>
          if Ascii.eqb q JS.quoteChar then
            match JS.readJSONString s1 with
            | Some (k, String ":" (String q' s2)) =>
                if Ascii.eqb q' JS.quoteChar then
                  match JS.readJSONString s2 with
                  | Some (v, String "," s3) =>
                      match members fuel' s3 with
                      | Some (ps, rest) => Some ((k, v) :: ps, rest)
                      | None => None
                      end
                  | Some (v, String "}" rest) => Some ([(k, v)], rest)
                  | _ => None
                  end
                else None
            | _ => None
            end
          else None
      | EmptyString => None
      end
  end.

(** A whole text that is one object. *)
Definition object (s : string) : option (list (string * string)) :=
  match s with
  | String "{" (String "}" EmptyString) => Some []
  | String "{" s1 =>
      match members (String.length s1) s1 with
      | Some (ps, EmptyString) => Some ps
      | _ => None
      end
  | _ => None
  end.

End JSONRead.

(** ** Timestamps *)

(** The last decimal digit of a number is one of ten values. *)
Lemma last_digit_cases (n : Z) : In (n mod 10) [0; 1; 2; 3; 4; 5; 6; 7; 8; 9].
Proof.
  assert (H : 0 <= n mod 10 < 10) by (apply Z.mod_pos_bound; lia).
  cbn [In]. lia.
Qed.

Ltac by_last_digit n :=
  let E := fresh "E" in
  pose proof (last_digit_cases n) as E; cbn [In] in E;
  repeat (destruct E as [E | E]; [rewrite <- E; reflexivity |]);
  contradiction.

Lemma isDigit_digit (n : Z) : JS.isDigit (JS.digit (n mod 10)) = true.
Proof. by_last_digit n. Qed.

Lemma digitValue_digit (n : Z) : JS.digitValue (JS.digit (n mod 10)) = n mod 10.
Proof. by_last_digit n. Qed.

(** Concatenation of strings is associative. *)
Lemma append_assoc (a b c : string) : (a ++ b) ++ c = a ++ (b ++ c).
Proof. induction a as [| x a IH]; simpl; [reflexivity | rewrite IH; reflexivity]. Qed.

(** Reading [k] digits off a number printed on [k] digits gives the
    number back. *)
Lemma takeDigits_pad (k : nat) :
  forall (j : nat) (acc n : Z) (rest : string),
    0 <= n < 10 ^ Z.of_nat k ->
    JS.takeDigits (k + j) acc (JS.pad k n ++ rest) =
    JS.takeDigits j (acc * 10 ^ Z.of_nat k + n) rest.
Proof.
  induction k as [| k IH]; intros j acc n rest Hn.
  - simpl in *. f_equal. lia.
  - cbn [JS.pad]. rewrite append_assoc. cbn [append].
    replace (S k + j)%nat with (k + S j)%nat by lia.
    rewrite Nat2Z.inj_succ, Z.pow_succ_r in * by lia.
    rewrite IH by (Z.div_mod_to_equations; lia).
    cbn [JS.takeDigits]. rewrite isDigit_digit, digitValue_digit.
    f_equal. Z.div_mod_to_equations; lia.
Qed.

(** The same, read from the start. *)
Lemma takeDigits_pad0 (k : nat) (n : Z) (rest : string) :
  0 <= n < 10 ^ Z.of_nat k ->
  JS.takeDigits k 0 (JS.pad k n ++ rest) = Some (n, rest).
Proof.
  intros H. pose proof (takeDigits_pad k 0 0 n rest H) as E.
  rewrite Nat.add_0_r in E. rewrite E. reflexivity.
Qed.

(** The date of a day number is a calendar date, and it is the date of
    that day. *)
Lemma civil_fields (days : Z) :
  let '(y, m, d) := JS.civil days in
  1 <= m <= 12 /\ 1 <= d <= 31 /\ JS.daysFromCivil y m d = days.
Proof.
  unfold JS.civil, JS.daysFromCivil.
  set (z := days + 719468).
  set (era := z / 146097). set (doe := z mod 146097).
  set (yoe := (doe - doe / 1460 + doe / 36524 - doe / 146096) / 365).
  set (doy := doe - (365 * yoe + yoe / 4 - yoe / 100)).
  set (mp := (5 * doy + 2) / 153).
  assert (Hdoe : 0 <= doe < 146097) by (apply Z.mod_pos_bound; lia).
  assert (Hy : 0 <= yoe <= 399 /\ 0 <= doy <= 365).
  { subst doy yoe. clearbody doe. Z.div_mod_to_equations; lia. }
  assert (Hmp : 0 <= mp <= 11) by (subst mp; Z.div_mod_to_equations; lia).
  assert (Hd : 1 <= doy - (153 * mp + 2) / 5 + 1 <= 31).
  { subst mp. destruct Hy as [_ Hy]. clearbody doy. Z.div_mod_to_equations; lia. }
  assert (Hz : z = era * 146097 + doe).
  { subst era doe. pose proof (Z.div_mod z 146097). lia. }
  clearbody yoe mp.
  destruct (mp <? 10) eqn:Emp.
  - apply Z.ltb_lt in Emp.
    destruct (mp + 3 <=? 2) eqn:E2; [apply Z.leb_le in E2; lia |].
    split; [lia |]. split; [lia |].
    replace (yoe + era * 400 + 0) with (yoe + era * 400) by lia.
    replace ((yoe + era * 400) / 400) with era by (Z.div_mod_to_equations; lia).
    replace ((yoe + era * 400) mod 400) with yoe by (Z.div_mod_to_equations; lia).
    replace (mp + 3 - 3) with mp by lia. subst doy z. lia.
  - apply Z.ltb_ge in Emp.
    destruct (mp - 9 <=? 2) eqn:E2; [| apply Z.leb_gt in E2; lia].
    split; [lia |]. split; [lia |].
    replace (yoe + era * 400 + 1 - 1) with (yoe + era * 400) by lia.
    replace ((yoe + era * 400) / 400) with era by (Z.div_mod_to_equations; lia).
    replace ((yoe + era * 400) mod 400) with yoe by (Z.div_mod_to_equations; lia).
    replace (mp - 9 + 9) with mp by lia. subst doy z. lia.
Qed.

(** A year printed on four digits does not start with a sign. *)
Lemma parseYear_digit (c : ascii) (s : string) :
  JS.isDigit c = true -> JS.parseYear (String c s) = JS.takeDigits 4 0 (String c s).
Proof.
  destruct c as [[] [] [] [] [] [] [] []]; intros H; try discriminate H; reflexivity.
Qed.

(** A number printed on at least one digit starts with a digit. *)
Lemma pad_S_head (w : nat) (n : Z) (rest : string) :
  exists (c : ascii) (s : string), JS.pad (S w) n ++ rest = String c s /\ JS.isDigit c = true.
Proof.
  revert n rest. induction w as [| w IH]; intros n rest.
  - cbn. eexists; eexists. split; [reflexivity | apply isDigit_digit].
  - change (JS.pad (S (S w)) n) with (JS.pad (S w) (n / 10) ++ String (JS.digit (n mod 10)) EmptyString).
    rewrite append_assoc. apply IH.
Qed.

(** A printed year reads back as the year. *)
Lemma parseYear_isoYear (y : Z) (rest : string) :
  -999999 <= y <= 999999 ->
  JS.parseYear (JS.isoYear y ++ rest) = Some (y, rest).
Proof.
  intros Hy. unfold JS.isoYear.
  destruct ((0 <=? y) && (y <=? 9999)) eqn:E.
  - apply andb_true_iff in E. destruct E as [E1 E2].
    apply Z.leb_le in E1. apply Z.leb_le in E2.
    destruct (pad_S_head 3 y rest) as (c & s & Es & Hc). rewrite Es.
    rewrite (parseYear_digit c s Hc). rewrite <- Es.
    apply takeDigits_pad0. cbn. lia.
  - destruct (y <? 0) eqn:Eneg.
    + apply Z.ltb_lt in Eneg. cbn [append]. cbn [JS.parseYear].
      rewrite takeDigits_pad0 by (cbn; lia). f_equal. f_equal. lia.
    + apply Z.ltb_ge in Eneg. cbn [append]. cbn [JS.parseYear].
      rewrite takeDigits_pad0 by (cbn; lia). reflexivity.
Qed.

(** Hours, minutes, seconds and milliseconds recompose the time of day. *)
Lemma time_fields (t : Z) :
  0 <= JS.HourFromTime t < 24 /\ 0 <= JS.MinFromTime t < 60 /\
  0 <= JS.SecFromTime t < 60 /\ 0 <= JS.msFromTime t < 1000 /\
  JS.Day t * JS.msPerDay
    + JS.MakeTime (JS.HourFromTime t) (JS.MinFromTime t) (JS.SecFromTime t) (JS.msFromTime t) = t.
Proof.
  unfold JS.HourFromTime, JS.MinFromTime, JS.SecFromTime, JS.msFromTime, JS.MakeTime, JS.Day,
    JS.TimeWithinDay, JS.msPerDay.
  Z.div_mod_to_equations. lia.
Qed.

(** Every time value a Date can hold has a year of at most six digits. *)
Lemma year_range (t : Z) :
  -8640000000000000 <= t <= 8640000000000000 ->
  -272000 <= JS.YearFromTime t <= 276000.
Proof.
  intros Ht. unfold JS.YearFromTime, JS.civil, JS.Day, JS.msPerDay. cbn [fst snd].
  set (z := t / 86400000 + 719468).
  assert (Hz : -100000000 + 719468 <= z <= 100000000 + 719468).
  { subst z. Z.div_mod_to_equations. lia. }
  clearbody z.
  set (doe := z mod 146097).
  assert (Hdoe : 0 <= doe < 146097) by (apply Z.mod_pos_bound; lia).
  set (yoe := (doe - doe / 1460 + doe / 36524 - doe / 146096) / 365).
  assert (Hy : 0 <= yoe <= 399) by (subst yoe; clearbody doe; Z.div_mod_to_equations; lia).
  set (doy := doe - (365 * yoe + yoe / 4 - yoe / 100)).
  set (mp := (5 * doy + 2) / 153).
  assert (He : -680 <= z / 146097 <= 689) by (Z.div_mod_to_equations; lia).
  destruct (_ <=? 2); lia.
Qed.

(** The timestamp of a time value reads back as that time value. *)
Lemma parseISO_toISOString (t : Z) :
  -8640000000000000 <= t <= 8640000000000000 ->
  JS.parseISO (JS.toISOString t) = Some t.
Proof.
  intros Ht. pose proof (year_range t Ht) as Hyear.
  pose proof (civil_fields (JS.Day t)) as Hc.
  pose proof (time_fields t) as (Hh & Hmi & Hs & Hms & Htime).
  unfold JS.toISOString, JS.parseISO, JS.YearFromTime, JS.MonthFromTime, JS.DateFromTime in *.
  destruct (JS.civil (JS.Day t)) as [[y m] d]. cbn [fst snd] in *.
  destruct Hc as (Hm & Hd & Hdays).
  rewrite parseYear_isoYear by lia.
  do 6 (cbn [JS.andThen append JS.expect Ascii.eqb Bool.eqb];
        rewrite takeDigits_pad0 by (cbn; lia)).
  cbn [JS.andThen append JS.expect Ascii.eqb Bool.eqb].
  replace ((1 <=? m) && (m <=? 12) && (1 <=? d) && (d <=? 31)
           && (JS.HourFromTime t <? 24) && (JS.MinFromTime t <? 60) && (JS.SecFromTime t <? 60))
    with true.
  - rewrite Hdays. f_equal. exact Htime.
  - symmetry. repeat (apply andb_true_iff; split);
      first [apply Z.leb_le; lia | apply Z.ltb_lt; lia].
Qed.

(** ** JSON text *)

(** Strings with equal heads and equal text have equal tails. *)
Lemma String_tail_eq (c : ascii) (a b : string) : String c a = String c b -> a = b.
Proof. intros H. injection H as H. exact H. Qed.

(** Reading an escaped code unit gives the code unit. *)
Lemma readJSONString_unit (c : ascii) (tail : string) :
  JS.readJSONString (JS.quoteJSONUnit c ++ tail) =
  match JS.readJSONString tail with
  | Some (content, after) => Some (String c content, after)
  | None => None
  end.
Proof.
  destruct c as [[] [] [] [] [] [] [] []]; reflexivity.
Qed.

(** Reading a quoted string gives the string and what follows it. *)
Lemma readJSONString_quoted (s rest : string) :
  JS.readJSONString (JS.quoteJSONBody s ++ String JS.quoteChar rest) = Some (s, rest).
Proof.
  induction s as [| c s IH].
  - reflexivity.
  - cbn [JS.quoteJSONBody]. rewrite append_assoc, readJSONString_unit, IH. reflexivity.
Qed.

(** A quoted string ends at its closing quote: two of them that start
    the same text are the same. *)
Lemma QuoteJSONString_prefix_free (a b ra rb : string) :
  JS.QuoteJSONString a ++ ra = JS.QuoteJSONString b ++ rb -> a = b /\ ra = rb.
Proof.
  unfold JS.QuoteJSONString. cbn [append]. intros H. apply String_tail_eq in H.
  rewrite !append_assoc in H. cbn [append] in H.
  pose proof (readJSONString_quoted a ra) as Ea.
  rewrite H, readJSONString_quoted in Ea. injection Ea as -> ->. split; reflexivity.
Qed.

(** The same for a key with its value. *)
Lemma member_prefix_free (k v v' r r' : string) :
  JS.QuoteJSONString k ++ ":" ++ JS.QuoteJSONString v ++ r =
  JS.QuoteJSONString k ++ ":" ++ JS.QuoteJSONString v' ++ r' ->
  v = v' /\ r = r'.
Proof.
  intros H. apply QuoteJSONString_prefix_free in H. destruct H as [_ H].
  cbn [append] in H. apply String_tail_eq in H.
  apply QuoteJSONString_prefix_free in H. exact H.
Qed.

(** Two objects with the same keys and the same JSON text have the same
    values. *)
Lemma stringifyMembers_injective (ps : list (string * string)) :
  forall (qs : list (string * string)) (ta tb : string),
    map fst ps = map fst qs ->
    JS.stringifyMembers ps ++ String "}" ta = JS.stringifyMembers qs ++ String "}" tb ->
    ps = qs.
Proof.
  induction ps as [| [k v] ps IH]; intros [| [k' v'] qs] ta tb Hkeys H;
    try discriminate Hkeys.
  - reflexivity.
  - cbn [map fst] in Hkeys. injection Hkeys as <- Hkeys.
    destruct ps as [| p ps], qs as [| q qs]; try discriminate Hkeys.
    + cbn [JS.stringifyMembers] in H. rewrite !append_assoc in H.
      apply member_prefix_free in H. destruct H as [<- _]. reflexivity.
    + cbn [JS.stringifyMembers] in H. rewrite !append_assoc in H.
      apply member_prefix_free in H. destruct H as [<- H].
      cbn [append] in H. apply String_tail_eq in H.
      f_equal. exact (IH (q :: qs) ta tb Hkeys H).
Qed.

(** The JSON text of a record determines the record. *)
Lemma JSON_stringify_injective (a b : ReportData.t) :
  JSON_stringify a = JSON_stringify b -> a = b.
Proof.
  unfold JSON_stringify, JS.stringifyObject. intros H.
  cbn [append] in H. apply String_tail_eq in H.
  apply stringifyMembers_injective in H; [| reflexivity].
  destruct a, b. unfold ReportData.properties in H.
  cbn [ReportData.brand ReportData.domain ReportData.expired ReportData.status
       ReportData.kategori ReportData.catatan ReportData.api_key] in H.
  congruence.
Qed.

(** ** Stepping through a run *)

Section Running.
Context {W : Type} (env : Env W).

(** One event: the environment answers, the rest runs from the state it
    left. *)
Lemma run_Vis {A X : Type} (ev : agentE X) (k : X -> Prog A) (w : W) :
  run env (Vis ev k) w =
  let r := run env (k (fst (env X ev w))) (snd (env X ev w)) in
  {| completion := completion r; world := world r;
     trace := item_of ev (fst (env X ev w)) :: trace r |}.
Proof. simpl. destruct (env X ev w). reflexivity. Qed.

(** Sequencing: the second part starts in the world the first one left,
    unless the first one threw. *)
Lemma run_bind {A B : Type} (p : Prog A) (f : A -> Prog B) (w : W) :
  run env (bind p f) w =
  match completion (run env p w) with
  | Normal a =>
      let r := run env (f a) (world (run env p w)) in
      {| completion := completion r; world := world r;
         trace := (trace (run env p w) ++ trace r)%list |}
  | Uncaught e =>
      {| completion := Uncaught e; world := world (run env p w);
         trace := trace (run env p w) |}
  end.
Proof.
  revert w. induction p as [a | e | X ev k IH]; intros w.
  - simpl. destruct (run env (f a) w). reflexivity.
  - reflexivity.
  - simpl. destruct (env X ev w) as [x w']. rewrite IH.
    simpl. destruct (completion (run env (k x) w')); reflexivity.
Qed.

(** A handler runs only when the body threw, from where it threw. *)
Lemma run_try_catch {A : Type} (body : Prog A) (handler : JSError -> Prog A) (w : W) :
  run env (try_catch body handler) w =
  match completion (run env body w) with
  | Normal a => run env body w
  | Uncaught e =>
      let r := run env (handler e) (world (run env body w)) in
      {| completion := completion r; world := world r;
         trace := (trace (run env body w) ++ trace r)%list |}
  end.
Proof.
  revert w. induction body as [a | e | X ev k IH]; intros w.
  - reflexivity.
  - simpl. destruct (run env (handler e) w). reflexivity.
  - simpl. destruct (env X ev w) as [x w']. rewrite IH.
    destruct (run env (k x) w') as [c w2 tr]. destruct c; reflexivity.
Qed.

(** A single event, and a console call. *)
Lemma run_trigger {X : Type} (ev : agentE X) (w : W) :
  run env (trigger ev) w =
  {| completion := Normal (fst (env X ev w)); world := snd (env X ev w);
     trace := [item_of ev (fst (env X ev w))] |}.
Proof. unfold trigger. rewrite run_Vis. reflexivity. Qed.

Lemma run_console (level : ConsoleLevel) (message : string) (args : list JSValue) (w : W) :
  run env (trigger (Console level message args)) w =
  {| completion := Normal tt; world := snd (env _ (Console level message args) w);
     trace := [Item_console level message args] |}.
Proof.
  rewrite run_trigger. destruct (fst (env _ (Console level message args) w)).
  reflexivity.
Qed.

End Running.

(** ** The functions of the agent, one at a time *)

Section Agent.
Context (cfg : Config) {W : Type} (env : Env W).

(** [generateReportData]: two reads, then the record. *)
Lemma generateReportData_run (w : W) :
  let hostname := fst (env _ LocationHostname w) in
  let w1 := snd (env _ LocationHostname w) in
  let now := fst (env _ NewDate w1) in
  run env (Slot603.generateReportData cfg) w =
  {| completion := Normal (report cfg hostname now);
     world := snd (env _ NewDate w1);
     trace := [Item_hostname hostname; Item_date now] |}.
Proof.
  unfold Slot603.generateReportData, Slot603.getCurrentDomain, trigger.
  cbn [bind]. rewrite !run_Vis. reflexivity.
Qed.

(** [sendReport]: one request and one log line, then the verdict. *)
Lemma sendReport_run (data : ReportData.t) (url : string) (w : W) :
  let o := fst (env _ (Fetch url (post_json data)) w) in
  exists w' : W,
    run env (Slot603.sendReport cfg data url) w =
    {| completion := Normal (succeeded o); world := w';
       trace := attempt cfg data url o |}.
Proof.
  unfold Slot603.sendReport, await_fetch, console_log, console_warn, console_error, trigger.
  cbn [bind try_catch]. fold (post_json data).
  rewrite run_Vis. cbn zeta.
  destruct (fst (env _ (Fetch url (post_json data)) w)) as [response | reason].
  - cbn [bind try_catch].
    destruct response as [ok st pl]. destruct ok; cbn [Response.ok bind try_catch];
      rewrite run_Vis; eexists; reflexivity.
  - cbn [bind try_catch]. rewrite run_Vis. eexists; reflexivity.
Qed.

(** [executeAgent]: every run is a cycle, and completes normally. *)
Lemma executeAgent_run (w : W) :
  exists (hostname : string) (now : Z) (o1 o2 : FetchOutcome) (w' : W),
    run env (Slot603.executeAgent cfg) w =
    {| completion := Normal tt; world := w';
       trace := cycle cfg hostname now o1 o2 |}.
Proof.
  unfold Slot603.executeAgent, console_log, console_error.
  rewrite run_bind, run_trigger. cbn [completion world trace].
  rewrite run_bind, generateReportData_run. cbn [completion world trace].
  set (w1 := snd (env _ (Console Log _ []) w)).
  set (hostname := fst (env _ LocationHostname w1)).
  set (w2 := snd (env _ LocationHostname w1)).
  set (now := fst (env _ NewDate w2)).
  set (w3 := snd (env _ NewDate w2)).
  set (data := report cfg hostname now).
  rewrite run_bind, run_trigger. cbn [completion world trace].
  set (w4 := snd (env _ (Console Log _ [VObject data]) w3)).
  rewrite run_bind.
  destruct (sendReport_run data (apiUrl cfg) w4) as [w5 E1]. rewrite E1.
  cbn [completion world trace].
  set (o1 := fst (env _ (Fetch (apiUrl cfg) (post_json data)) w4)) in *.
  exists hostname, now, o1.
  destruct (succeeded o1) eqn:S1; cbn [negb].
  - exists o1. cbn [bind]. rewrite run_console. eexists.
    unfold cycle. fold data. rewrite S1. reflexivity.
  - rewrite run_bind, run_bind, run_trigger. cbn [completion world trace].
    set (w6 := snd (env _ (Console Log _ []) w5)).
    destruct (sendReport_run data (localApiUrl cfg) w6) as [w7 E2]. rewrite E2.
    cbn [completion world trace].
    set (o2 := fst (env _ (Fetch (localApiUrl cfg) (post_json data)) w6)) in *.
    exists o2.
    destruct (succeeded o2) eqn:S2; rewrite run_console; eexists;
      unfold cycle; fold data; rewrite S1, S2; reflexivity.
Qed.

End Agent.

(** What the histories of a cycle hold, by kind. *)
Section CycleFacts.
Context (cfg : Config) (hostname : string) (now : Z) (o1 o2 : FetchOutcome).

Lemma cycle_deliveries :
  deliveries (cycle cfg hostname now o1 o2) =
  ({| to := apiUrl cfg; request := post_json (report cfg hostname now); outcome := o1 |}
   :: (if succeeded o1 then []
       else [{| to := localApiUrl cfg;
                request := post_json (report cfg hostname now);
                outcome := o2 |}]))%list.
Proof.
  unfold cycle, attempt, attempt_line, cycle_succeeded, cycle_failed.
  destruct o1 as [[[] ? ?] | ?], o2 as [[[] ? ?] | ?]; reflexivity.
Qed.

Lemma cycle_hostname_reads :
  hostname_reads (cycle cfg hostname now o1 o2) = [hostname].
Proof.
  unfold cycle, attempt, attempt_line, cycle_succeeded, cycle_failed.
  destruct o1 as [[[] ? ?] | ?], o2 as [[[] ? ?] | ?]; reflexivity.
Qed.

Lemma cycle_clock_reads :
  clock_reads (cycle cfg hostname now o1 o2) = [now].
Proof.
  unfold cycle, attempt, attempt_line, cycle_succeeded, cycle_failed.
  destruct o1 as [[[] ? ?] | ?], o2 as [[[] ? ?] | ?]; reflexivity.
Qed.

End CycleFacts.

(** ** Scenarios *)

(** Primary answers 500, fallback answers 200: two attempts, success. *)
Example scenario_fallback_succeeds :
  let r := slot603_cycle [(http 500, 40); (http 200, 10)] in
  map (fun d => (to d, succeeded (outcome d))) (deliveries (trace r)) =
    [(apiUrl Slot603.CONFIG, false); (localApiUrl Slot603.CONFIG, true)] /\
  last (trace r) (cycle_failed Slot603.CONFIG) = cycle_succeeded Slot603.CONFIG /\
  completion r = Normal tt.
Proof. vm_compute. repeat split. Qed.

(** Both endpoints refuse the connection: two attempts, failure logged,
    nothing thrown. *)
Example scenario_both_refused :
  let r := slot603_cycle [(refused, 3); (refused, 3)] in
  map (fun d => (to d, succeeded (outcome d))) (deliveries (trace r)) =
    [(apiUrl Slot603.CONFIG, false); (localApiUrl Slot603.CONFIG, false)] /\
  last (trace r) (cycle_succeeded Slot603.CONFIG) = cycle_failed Slot603.CONFIG /\
  completion r = Normal tt.
Proof. vm_compute. repeat split. Qed.

(** Primary answers 200: the fallback is not contacted. *)
Example scenario_primary_succeeds :
  let r := slot603_cycle [(http 200, 25); (http 200, 10)] in
  calls_to (apiUrl Slot603.CONFIG) (trace r) = 1%nat /\
  calls_to (localApiUrl Slot603.CONFIG) (trace r) = 0%nat /\
  last (trace r) (cycle_failed Slot603.CONFIG) = cycle_succeeded Slot603.CONFIG.
Proof. vm_compute. repeat split. Qed.

(** The body that goes on the wire. *)
Example scenario_body :
  JSON_stringify (report Netpro.CONFIG "example.com" 0) =
  String.concat (String JS.quoteChar EmptyString)
    ["{"; "brand"; ":"; "netpro"; ","; "domain"; ":"; "example.com"; ",";
     "expired"; ":"; "2025-08-01"; ","; "status"; ":"; "aktif"; ",";
     "kategori"; ":"; "normal"; ","; "catatan"; ":";
     "Report from JS Agent - 1970-01-01T00:00:00.000Z"; ",";
     "api_key"; ":"; "NETPRO-KEY"; "}"].
Proof. vm_compute. reflexivity. Qed.

(** Both agents on one page that has already loaded: each is called once
    by its script, then the two timers take turns every 30 minutes. *)
Example scenario_two_agents :
  map (fun s => (start_time s, start_cause s))
    (started (play [Fire; Fire; Fire; Fire; Fire]
       (Netpro.main Netpro.CONFIG (Slot603.main Slot603.CONFIG (blank "complete" 0))))) =
  [(0, ByScript); (0, ByScript); (1800000, ByTimer 1); (1800000, ByTimer 2);
   (3600000, ByTimer 1); (3600000, ByTimer 2); (5400000, ByTimer 1)].
Proof. vm_compute. reflexivity. Qed.

(** Clearing the timer would take it off the page; the script never does. *)
Example scenario_cleared_timer :
  let pg := Slot603.main Slot603.CONFIG (blank "complete" 0) in
  map timer_id (timers pg) = [1] /\
  map timer_id (timers (clearInterval 1 pg)) = [] /\
  map start_time (started (fire (clearInterval 1 pg))) = map start_time (started pg).
Proof. vm_compute. repeat split. Qed.

Example parseISO_samples :
  JS.parseISO "2025-08-01T00:00:00.000Z" = Some 1754006400000 /\
  JS.parseISO "1969-12-31T23:59:59.999Z" = Some (-1) /\
  JS.parseISO "+275760-09-13T00:00:00.000Z" = Some 8640000000000000 /\
  JS.parseISO "2025-13-01T00:00:00.000Z" = None /\
  JS.parseISO "2025-08-01 00:00:00" = None.
Proof. vm_compute. repeat split. Qed.

Example toISOString_samples :
  JS.toISOString 0 = "1970-01-01T00:00:00.000Z" /\
  JS.toISOString 1754006400000 = "2025-08-01T00:00:00.000Z" /\
  JS.toISOString (-1) = "1969-12-31T23:59:59.999Z" /\
  JS.toISOString 951782400123 = "2000-02-29T00:00:00.123Z" /\
  JS.toISOString 253402300799999 = "9999-12-31T23:59:59.999Z" /\
  JS.toISOString 253402300800000 = "+010000-01-01T00:00:00.000Z" /\
  JS.toISOString (-62167219200001) = "-000001-12-31T23:59:59.999Z".
Proof. vm_compute. repeat split. Qed.

(** ** Properties of one call *)

(** C5. Whatever the environment, [generateReportData] returns a record
    whose brand, expired, status, kategori and api_key fields are the
    configuration's brand, expired, status, kategori and apiKey, unchanged. *)
Theorem generateReportData_copies_config (cfg : Config) (W : Type) (env : Env W) (w : W) :
  exists data : ReportData.t,
    completion (run env (Slot603.generateReportData cfg) w) = Normal data /\
    ReportData.brand data = brand cfg /\
    ReportData.expired data = expired cfg /\
    ReportData.status data = status cfg /\
    ReportData.kategori data = kategori cfg /\
    ReportData.api_key data = apiKey cfg.
Proof.
  rewrite generateReportData_run. eexists. split; [reflexivity |].
  repeat split.
Qed.

(** C6. [generateReportData] sets [domain] to the host name the
    environment reports when it is called, and [catatan] to the marker
    "Report from JS Agent - " followed by the timestamp of the time the
    environment reports next, in the format YYYY-MM-DDTHH:mm:ss.sssZ: for
    every time value a Date can hold, the timestamp reads back as that
    time.  The call does nothing but these two reads: no request, no log
    line, nothing thrown. *)
Theorem generateReportData_reads_environment (cfg : Config) (W : Type) (env : Env W) (w : W) :
  let hostname := fst (env _ LocationHostname w) in
  let now := fst (env _ NewDate (snd (env _ LocationHostname w))) in
  let r := run env (Slot603.generateReportData cfg) w in
  exists (data : ReportData.t) (stamp : string),
    completion r = Normal data /\
    ReportData.domain data = hostname /\
    ReportData.catatan data = "Report from JS Agent - " ++ stamp /\
    stamp = JS.toISOString now /\
    (-8640000000000000 <= now <= 8640000000000000 -> JS.parseISO stamp = Some now) /\
    trace r = [Item_hostname hostname; Item_date now] /\
    forallb is_read (trace r) = true /\
    deliveries (trace r) = [].
Proof.
  cbn zeta. rewrite generateReportData_run.
  eexists. eexists. split; [reflexivity |].
  split; [reflexivity |]. split; [reflexivity |]. split; [reflexivity |].
  split; [apply parseISO_toISOString |].
  repeat split.
Qed.

Lemma generateReportData_reads_environment_witness :
  -8640000000000000 <= 1754006400000 <= 8640000000000000 /\
  exists (data : ReportData.t) (stamp : string),
    completion (run scripted (Slot603.generateReportData Slot603.CONFIG) (example_world []))
      = Normal data /\
    ReportData.domain data = "example.com" /\
    ReportData.catatan data = "Report from JS Agent - " ++ stamp /\
    JS.parseISO stamp = Some 1754006400000.
Proof.
  assert (Hrange : -8640000000000000 <= 1754006400000 <= 8640000000000000) by lia.
  split; [exact Hrange |].
  destruct (generateReportData_reads_environment Slot603.CONFIG World scripted
              (example_world []))
    as (data & stamp & Hdone & Hdomain & Hnote & _ & Hparse & _).
  exists data, stamp.
  split; [exact Hdone |]. split; [exact Hdomain |]. split; [exact Hnote |].
  exact (Hparse Hrange).
Defined.

(** C7. [sendReport data url] makes exactly one request: a POST to [url]
    with the headers Content-Type: application/json and User-Agent:
    DomainMonitor-Agent/1.0 and the JSON text of [data] as body, a text no
    other record has.  It returns [true] exactly when the promise is
    fulfilled with a response whose [ok] flag is set, and [false] for a
    response that is not ok or a rejected promise; the status and the
    payload play no part, and no second request is made. *)
Theorem sendReport_single_post (cfg : Config) (data : ReportData.t) (url : string)
    (W : Type) (env : Env W) (w : W) :
  let init :=
    {| RequestInit.method := "POST";
       RequestInit.headers :=
         [("Content-Type", "application/json");
          ("User-Agent", "DomainMonitor-Agent/1.0")];
       RequestInit.body := JSON_stringify data |} in
  let o := fst (env _ (Fetch url init) w) in
  let r := run env (Slot603.sendReport cfg data url) w in
  deliveries (trace r) = [{| to := url; request := init; outcome := o |}] /\
  (forall other : ReportData.t,
      JSON_stringify other = RequestInit.body init -> other = data) /\
  completion r =
    Normal match o with
           | Fulfilled response => Response.ok response
           | Rejected _ => false
           end /\
  hostname_reads (trace r) = [] /\ clock_reads (trace r) = [].
Proof.
  cbn zeta. destruct (sendReport_run cfg env data url w) as [w' E].
  rewrite E. cbn [trace completion RequestInit.body].
  unfold attempt, attempt_line, post_json.
  split; [| split; [intros other; apply JSON_stringify_injective |]];
    destruct (fst (env _ (Fetch url _) w)) as [[[] ? ?] | ?]; repeat split.
Qed.

(** C4. Nothing is thrown out of a cycle.  However the request ends,
    [sendReport] completes normally with a boolean, which is [false] when
    the promise is rejected or the response is not ok; and [executeAgent]
    completes normally in every environment. *)
Theorem no_exception_escapes (cfg : Config) (W : Type) (env : Env W) (w : W) :
  (forall (data : ReportData.t) (url : string) (w0 : W),
      completion (run env (Slot603.sendReport cfg data url) w0) =
      Normal match fst (env _ (Fetch url (post_json data)) w0) with
             | Fulfilled response => Response.ok response
             | Rejected _ => false
             end) /\
  completion (run env (Slot603.executeAgent cfg) w) = Normal tt.
Proof.
  split.
  - intros data url w0. destruct (sendReport_run cfg env data url w0) as [w' E].
    rewrite E. reflexivity.
  - destruct (executeAgent_run cfg env w) as (hostname & now & o1 & o2 & w' & E).
    rewrite E. reflexivity.
Qed.

(** ** Properties of one cycle *)

(** Calls are counted on the requests of the history. *)
Lemma calls_to_deliveries (url : string) (tr : list Item) :
  calls_to url tr = length (filter (fun d => (to d =? url)%string) (deliveries tr)).
Proof. reflexivity. Qed.

(** C1. In every cycle the first request goes to the primary URL.  It is
    followed by nothing when it succeeded, and by one request to the
    fallback URL when it did not (the list is in order of occurrence and
    every entry carries the way its request ended).  With two different
    URLs, as both agents have, that makes exactly one call for the primary
    URL, and none for the fallback URL after a success. *)
Theorem primary_once_then_fallback (cfg : Config) (W : Type) (env : Env W) (w : W) :
  let tr := trace (run env (Slot603.executeAgent cfg) w) in
  exists (data : ReportData.t) (o1 o2 : FetchOutcome),
    deliveries tr =
      ({| to := apiUrl cfg; request := post_json data; outcome := o1 |}
       :: (if succeeded o1 then []
           else [{| to := localApiUrl cfg; request := post_json data; outcome := o2 |}]))%list /\
    (apiUrl cfg <> localApiUrl cfg ->
     calls_to (apiUrl cfg) tr = 1%nat /\
     calls_to (localApiUrl cfg) tr = if succeeded o1 then 0%nat else 1%nat).
Proof.
  cbn zeta.
  destruct (executeAgent_run cfg env w) as (hostname & now & o1 & o2 & w' & E).
  rewrite E. cbn [trace].
  exists (report cfg hostname now), o1, o2.
  split; [apply cycle_deliveries |].
  intros Hne. rewrite !calls_to_deliveries, cycle_deliveries.
  cbn [filter to].
  rewrite String.eqb_refl.
  destruct (String.eqb_spec (apiUrl cfg) (localApiUrl cfg)) as [Heq | _];
    [contradiction |].
  destruct (succeeded o1); cbn [filter to length].
  - split; reflexivity.
  - rewrite String.eqb_refl.
    destruct (String.eqb_spec (localApiUrl cfg) (apiUrl cfg)) as [Heq | _];
      [symmetry in Heq; contradiction |].
    split; reflexivity.
Qed.

Lemma primary_once_then_fallback_witness :
  apiUrl Slot603.CONFIG <> localApiUrl Slot603.CONFIG /\
  calls_to (apiUrl Slot603.CONFIG)
    (trace (slot603_cycle [(http 500, 40); (http 200, 10)])) = 1%nat.
Proof.
  assert (Hne : apiUrl Slot603.CONFIG <> localApiUrl Slot603.CONFIG) by discriminate.
  split; [exact Hne |].
  destruct (primary_once_then_fallback Slot603.CONFIG World scripted
              (example_world [(http 500, 40); (http 200, 10)]))
    as (data & o1 & o2 & _ & H).
  exact (proj1 (H Hne)).
Defined.

(** C2. When the first request of a cycle fails, exactly one more request
    follows.  It goes to the fallback URL and carries the same request as
    the first: the JSON text of one and the same record, which no record
    differing in any of the seven fields has.  The host name and the clock
    are read once in the whole cycle, before the first request, so the
    timestamp in [catatan] is the same in both. *)
Theorem fallback_resends_same_record (cfg : Config) (W : Type) (env : Env W) (w : W)
    (d : Delivery) (later : list Delivery) :
  let tr := trace (run env (Slot603.executeAgent cfg) w) in
  deliveries tr = d :: later ->
  succeeded (outcome d) = false ->
  exists (hostname : string) (now : Z) (data : ReportData.t) (o2 : FetchOutcome),
    data = report cfg hostname now /\
    to d = apiUrl cfg /\ request d = post_json data /\
    later = [{| to := localApiUrl cfg; request := post_json data; outcome := o2 |}] /\
    (forall other : ReportData.t,
        JSON_stringify other = RequestInit.body (request d) -> other = data) /\
    hostname_reads tr = [hostname] /\ clock_reads tr = [now] /\
    exists before after : list Item,
      tr = (before ++ after)%list /\
      deliveries before = [] /\
      hostname_reads after = [] /\ clock_reads after = [] /\
      deliveries after = d :: later.
Proof.
  cbn zeta.
  destruct (executeAgent_run cfg env w) as (hostname & now & o1 & o2 & w' & E).
  rewrite E. cbn [trace]. rewrite cycle_deliveries.
  intros Hd Hfail. injection Hd as Hd Hlater. subst d. cbn [outcome] in Hfail.
  rewrite Hfail in Hlater.
  exists hostname, now, (report cfg hostname now), o2.
  split; [reflexivity |]. split; [reflexivity |]. split; [reflexivity |].
  split; [symmetry; exact Hlater |].
  split; [intros other; apply JSON_stringify_injective |].
  split; [apply cycle_hostname_reads |]. split; [apply cycle_clock_reads |].
  unfold cycle. rewrite Hfail.
  eexists; eexists. split; [reflexivity |].
  split; [reflexivity |].
  subst later. unfold attempt, attempt_line.
  destruct o1 as [[[] ? ?] | ?], o2 as [[[] ? ?] | ?];
    try discriminate Hfail; repeat split.
Qed.

Lemma fallback_resends_same_record_witness :
  let tr := trace (slot603_cycle [(http 500, 40); (http 200, 10)]) in
  let data := report Slot603.CONFIG "example.com" 1754006400000 in
  let d := {| to := apiUrl Slot603.CONFIG; request := post_json data;
              outcome := http 500 |} in
  let later := [{| to := localApiUrl Slot603.CONFIG; request := post_json data;
                   outcome := http 200 |}] in
  deliveries tr = d :: later /\
  succeeded (outcome d) = false /\
  exists (hostname : string) (now : Z) (data' : ReportData.t) (o2 : FetchOutcome),
    data' = report Slot603.CONFIG hostname now /\
    to d = apiUrl Slot603.CONFIG /\ request d = post_json data' /\
    later = [{| to := localApiUrl Slot603.CONFIG; request := post_json data';
                outcome := o2 |}] /\
    (forall other : ReportData.t,
        JSON_stringify other = RequestInit.body (request d) -> other = data') /\
    hostname_reads tr = [hostname] /\ clock_reads tr = [now] /\
    exists before after : list Item,
      tr = (before ++ after)%list /\
      deliveries before = [] /\
      hostname_reads after = [] /\ clock_reads after = [] /\
      deliveries after = d :: later.
Proof.
  cbn zeta.
  split; [vm_compute; reflexivity |].
  split; [reflexivity |].
  apply (fallback_resends_same_record Slot603.CONFIG World scripted
           (example_world [(http 500, 40); (http 200, 10)])).
  - vm_compute. reflexivity.
  - reflexivity.
Defined.

(** Messages of one agent are told apart by what follows the brand tag. *)
Lemma append_cancel_l (s a b : string) : s ++ a = s ++ b -> a = b.
Proof.
  induction s as [| c s IH]; simpl; intros H.
  - exact H.
  - injection H as H. exact (IH H).
Qed.

Ltac other_line :=
  let H := fresh in
  intros H; unfold cycle_succeeded, cycle_failed, attempt_line in H;
  repeat match type of H with
         | context [match ?o with Fulfilled _ => _ | Rejected _ => _ end] => destruct o
         | context [if Response.ok ?r then _ else _] => destruct (Response.ok r)
         end;
  try discriminate H;
  injection H as H; apply append_cancel_l in H; discriminate H.

(** No other line of a cycle is a cycle-level line. *)
Lemma front_lines_not_final (cfg : Config) (data : ReportData.t) (final : Item) :
  final = cycle_succeeded cfg \/ final = cycle_failed cfg ->
  Item_console Log ("[" ++ brand cfg ++ "] Domain Monitor Agent starting...") [] <> final /\
  Item_console Log ("[" ++ brand cfg ++ "] Generated report data:") [VObject data] <> final /\
  Item_console Log ("[" ++ brand cfg ++ "] Trying local API as fallback...") [] <> final /\
  (forall url o, attempt_line cfg url o <> final).
Proof.
  intros [-> | ->]; repeat split; try intros url o; other_line.
Qed.

(** The history of a cycle ends with one cycle-level line, success when a
    request succeeded and failure otherwise, and holds no other. *)
Lemma cycle_final_line (cfg : Config) (hostname : string) (now : Z) (o1 o2 : FetchOutcome) :
  exists front : list Item,
    cycle cfg hostname now o1 o2 =
      (front ++ [if succeeded o1 then cycle_succeeded cfg
                 else if succeeded o2 then cycle_succeeded cfg
                      else cycle_failed cfg])%list /\
    ~ In (cycle_succeeded cfg) front /\ ~ In (cycle_failed cfg) front.
Proof.
  destruct (front_lines_not_final cfg (report cfg hostname now) (cycle_succeeded cfg))
    as (S1 & S2 & S3 & S4); [left; reflexivity |].
  destruct (front_lines_not_final cfg (report cfg hostname now) (cycle_failed cfg))
    as (F1 & F2 & F3 & F4); [right; reflexivity |].
  unfold cycle, attempt. destruct (succeeded o1).
  - exists ([Item_console Log ("[" ++ brand cfg ++ "] Domain Monitor Agent starting...") [];
             Item_hostname hostname; Item_date now;
             Item_console Log ("[" ++ brand cfg ++ "] Generated report data:")
               [VObject (report cfg hostname now)];
             Item_fetch (apiUrl cfg) (post_json (report cfg hostname now)) o1;
             attempt_line cfg (apiUrl cfg) o1]).
    split; [reflexivity |].
    split; cbn [In]; intros H;
      repeat (destruct H as [H | H]; [first [discriminate H | congruence | eapply S4; eassumption | eapply F4; eassumption] |]);
      exact H.
  - exists ([Item_console Log ("[" ++ brand cfg ++ "] Domain Monitor Agent starting...") [];
             Item_hostname hostname; Item_date now;
             Item_console Log ("[" ++ brand cfg ++ "] Generated report data:")
               [VObject (report cfg hostname now)];
             Item_fetch (apiUrl cfg) (post_json (report cfg hostname now)) o1;
             attempt_line cfg (apiUrl cfg) o1;
             Item_console Log ("[" ++ brand cfg ++ "] Trying local API as fallback...") [];
             Item_fetch (localApiUrl cfg) (post_json (report cfg hostname now)) o2;
             attempt_line cfg (localApiUrl cfg) o2]).
    split; [destruct (succeeded o2); reflexivity |].
    split; cbn [In]; intros H;
      repeat (destruct H as [H | H]; [first [discriminate H | congruence | eapply S4; eassumption | eapply F4; eassumption] |]);
      exact H.
Qed.

(** The two cycle-level lines differ. *)
Lemma cycle_succeeded_not_failed (cfg : Config) : cycle_succeeded cfg <> cycle_failed cfg.
Proof. discriminate. Qed.

(** C3. A cycle logs its success line exactly when one of its requests (at
    most two) succeeded, and its failure line exactly when every request
    it made failed; the line is the last entry of the history and the
    only cycle-level line in it. *)
Theorem cycle_outcome_logged (cfg : Config) (W : Type) (env : Env W) (w : W) :
  let tr := trace (run env (Slot603.executeAgent cfg) w) in
  (In (cycle_succeeded cfg) tr <->
   Exists (fun d => succeeded (outcome d) = true) (deliveries tr)) /\
  (In (cycle_failed cfg) tr <->
   Forall (fun d => succeeded (outcome d) = false) (deliveries tr)) /\
  (1 <= length (deliveries tr) <= 2)%nat /\
  exists (front : list Item) (final : Item),
    tr = (front ++ [final])%list /\
    (final = cycle_succeeded cfg \/ final = cycle_failed cfg) /\
    ~ In (cycle_succeeded cfg) front /\ ~ In (cycle_failed cfg) front.
Proof.
  cbn zeta.
  destruct (executeAgent_run cfg env w) as (hostname & now & o1 & o2 & w' & E).
  rewrite E. cbn [trace]. rewrite cycle_deliveries.
  destruct (cycle_final_line cfg hostname now o1 o2) as (front & Efront & NS & NF).
  rewrite Efront.
  pose proof (cycle_succeeded_not_failed cfg) as Hdiff.
  assert (Hin : forall x y : Item, In x (front ++ [y]) <-> In x front \/ x = y).
  { intros x y. rewrite in_app_iff. cbn [In]. intuition congruence. }
  destruct (succeeded o1) eqn:S1; [| destruct (succeeded o2) eqn:S2].
  - split; [| split; [| split]].
    + split; intros _; [constructor; exact S1 | apply Hin; right; reflexivity].
    + split.
      * intros H. apply Hin in H. destruct H as [H | H]; [contradiction | congruence].
      * intros H. inversion H; subst. cbn [outcome] in *. congruence.
    + cbn [length]. lia.
    + exists front, (cycle_succeeded cfg). repeat split; auto.
  - split; [| split; [| split]].
    + split; intros _; [| apply Hin; right; reflexivity].
      apply Exists_cons_tl. constructor. exact S2.
    + split.
      * intros H. apply Hin in H. destruct H as [H | H]; [contradiction | congruence].
      * intros H. inversion H as [| ? ? _ H2]; subst.
        inversion H2; subst. cbn [outcome] in *. congruence.
    + cbn [length]. lia.
    + exists front, (cycle_succeeded cfg). repeat split; auto.
  - split; [| split; [| split]].
    + split.
      * intros H. apply Hin in H. destruct H as [H | H]; [contradiction | congruence].
      * intros H. inversion H as [? ? H1 | ? ? H1]; subst; cbn [outcome] in *;
          [congruence |].
        inversion H1 as [? ? H2 | ? ? H2]; subst; cbn [outcome] in *;
          [congruence | inversion H2].
    + split; intros _; [| apply Hin; right; reflexivity].
      repeat constructor; assumption.
    + cbn [length]. lia.
    + exists front, (cycle_failed cfg). repeat split; auto.
Qed.

(** C10. Two cycles of the same agent that are told the same host name
    and the same time and see their requests end the same way have the
    same history, entry for entry: the same record (logged and sent), the
    same requests in the same order, the same log lines and the same final
    line; and both complete normally.  The environments may differ in
    everything else, their type of state included. *)
Theorem executeAgent_deterministic (cfg : Config) (W1 W2 : Type)
    (env1 : Env W1) (env2 : Env W2) (w1 : W1) (w2 : W2) :
  let r1 := run env1 (Slot603.executeAgent cfg) w1 in
  let r2 := run env2 (Slot603.executeAgent cfg) w2 in
  hostname_reads (trace r1) = hostname_reads (trace r2) ->
  clock_reads (trace r1) = clock_reads (trace r2) ->
  map outcome (deliveries (trace r1)) = map outcome (deliveries (trace r2)) ->
  trace r1 = trace r2 /\
  deliveries (trace r1) = deliveries (trace r2) /\
  completion r1 = completion r2.
Proof.
  cbn zeta.
  destruct (executeAgent_run cfg env1 w1) as (h1 & t1 & a1 & b1 & w1' & E1).
  destruct (executeAgent_run cfg env2 w2) as (h2 & t2 & a2 & b2 & w2' & E2).
  rewrite E1, E2. cbn [trace completion].
  rewrite !cycle_hostname_reads, !cycle_clock_reads, !cycle_deliveries.
  intros Hh Ht Ho. injection Hh as ->. injection Ht as ->.
  cbn [map outcome] in Ho. injection Ho as -> Ho.
  unfold cycle. destruct (succeeded a2).
  - repeat split.
  - cbn [map outcome] in Ho. injection Ho as ->. repeat split.
Qed.

Lemma executeAgent_deterministic_witness :
  let r1 := slot603_cycle [(http 500, 40); (http 200, 10)] in
  let r2 := slot603_cycle [(http 500, 7000); (http 200, 1); (refused, 5)] in
  world r1 <> world r2 /\
  trace r1 = trace r2 /\
  deliveries (trace r1) = deliveries (trace r2) /\
  completion r1 = completion r2.
Proof.
  cbn zeta. split; [vm_compute; discriminate |].
  apply (executeAgent_deterministic Slot603.CONFIG World World scripted scripted
           (example_world [(http 500, 40); (http 200, 10)])
           (example_world [(http 500, 7000); (http 200, 1); (refused, 5)]));
    vm_compute; reflexivity.
Defined.

(** ** The two agents *)

(** C9. The functions of the netpro agent are the functions of the slot603
    agent: taken as functions of the configuration they close over, the
    two copies of [getCurrentDomain], [generateReportData], [sendReport],
    [executeAgent] and of the top-level statements are equal.  The two
    configurations agree on both URLs, on expired, status and kategori,
    and differ in brand and apiKey. *)
Theorem agents_equal_up_to_config :
  Slot603.getCurrentDomain = Netpro.getCurrentDomain /\
  Slot603.generateReportData = Netpro.generateReportData /\
  Slot603.sendReport = Netpro.sendReport /\
  Slot603.executeAgent = Netpro.executeAgent /\
  Slot603.main = Netpro.main /\
  apiUrl Slot603.CONFIG = apiUrl Netpro.CONFIG /\
  localApiUrl Slot603.CONFIG = localApiUrl Netpro.CONFIG /\
  expired Slot603.CONFIG = expired Netpro.CONFIG /\
  status Slot603.CONFIG = status Netpro.CONFIG /\
  kategori Slot603.CONFIG = kategori Netpro.CONFIG /\
  brand Slot603.CONFIG <> brand Netpro.CONFIG /\
  apiKey Slot603.CONFIG <> apiKey Netpro.CONFIG.
Proof.
  repeat split; try reflexivity; discriminate.
Qed.

(** ** The schedule *)

(** Counting firings, finding the first end of parsing and playing moves,
    one move further. *)
Lemma fires_app (ms : list Move) (m : Move) :
  fires (ms ++ [m]) = (fires ms + fires [m])%nat.
Proof.
  induction ms as [| [| t] ms IH]; simpl in *.
  - destruct m; reflexivity.
  - rewrite IH. reflexivity.
  - exact IH.
Qed.

Lemma first_loaded_app (ms : list Move) (m : Move) :
  first_loaded (ms ++ [m]) =
  match first_loaded ms with
  | Some t => Some t
  | None => first_loaded [m]
  end.
Proof.
  induction ms as [| [| t] ms IH]; simpl in *.
  - destruct m; reflexivity.
  - exact IH.
  - reflexivity.
Qed.

Lemma play_app (ms : list Move) (m : Move) (pg : Page) :
  play (ms ++ [m]) pg = move (play ms pg) m.
Proof. unfold play. rewrite fold_left_app. reflexivity. Qed.

(** What the top-level statements add to a page, whatever is on it. *)
Lemma main_registers (cfg : Config) (pg : Page) :
  let agent := Slot603.executeAgent cfg in
  let loading := (readyState pg =? "loading")%string in
  let pg' := Slot603.main cfg pg in
  timers pg' =
    (timers pg ++
     [{| timer_id := next_timer_id pg; timer_handler := agent;
         timer_timeout := 1800000; timer_due := clock pg + 1800000 |}])%list /\
  listeners pg' =
    (if loading then (listeners pg ++ [("DOMContentLoaded", agent)])%list
     else listeners pg) /\
  started pg' =
    (if loading then started pg
     else (started pg ++
           [{| start_time := clock pg; start_cause := ByScript;
               start_callback := agent |}])%list) /\
  readyState pg' = readyState pg /\ clock pg' = clock pg.
Proof.
  cbn zeta. unfold Slot603.main.
  destruct (readyState pg =? "loading")%string; repeat split.
Qed.

Section Schedule.
Context (agent : Callback) (state : string) (t0 : Z) (pg1 : Page).

(** A page on which one timer calls [agent] every 1800000 milliseconds
    from [t0] on, and on which [agent] was called at once, or waits for the
    end of parsing. *)
Hypothesis timers1 :
  timers pg1 =
    [{| timer_id := 1; timer_handler := agent; timer_timeout := 1800000;
        timer_due := t0 + 1800000 |}].
Hypothesis listeners1 :
  listeners pg1 =
    (if (state =? "loading")%string then [("DOMContentLoaded", agent)] else []).
Hypothesis started1 :
  started pg1 =
    (if (state =? "loading")%string then []
     else [{| start_time := t0; start_cause := ByScript; start_callback := agent |}]).
Hypothesis readyState1 : readyState pg1 = state.

(** The page after the browser made the moves [ms]. *)
Lemma schedule_invariant (ms : list Move) :
  let loading := (state =? "loading")%string in
  let pg := play ms pg1 in
  timers pg =
    [{| timer_id := 1; timer_handler := agent; timer_timeout := 1800000;
        timer_due := t0 + (Z.of_nat (fires ms) + 1) * 1800000 |}] /\
  listeners pg = (if loading then [("DOMContentLoaded", agent)] else []) /\
  readyState pg =
    (if loading then
       match first_loaded ms with Some _ => "interactive" | None => state end
     else state) /\
  filter by_timer (started pg) =
    map (fun k => {| start_time := t0 + Z.of_nat k * 1800000;
                     start_cause := ByTimer 1; start_callback := agent |})
        (seq 1 (fires ms)) /\
  filter (fun s => negb (by_timer s)) (started pg) =
    (if loading then
       match first_loaded ms with
       | Some t => [{| start_time := t; start_cause := ByEvent "DOMContentLoaded";
                       start_callback := agent |}]
       | None => []
       end
     else [{| start_time := t0; start_cause := ByScript; start_callback := agent |}]).
Proof.
  cbn zeta. induction ms as [| m ms IH] using rev_ind.
  - unfold play. cbn [fold_left fires first_loaded seq map].
    rewrite timers1, listeners1, started1, readyState1.
    replace (t0 + (Z.of_nat 0 + 1) * 1800000) with (t0 + 1800000) by lia.
    destruct (state =? "loading")%string; repeat split.
  - destruct IH as (Ht & Hl & Hr & Hby & Hnot).
    rewrite play_app, fires_app, first_loaded_app.
    set (pg := play ms pg1) in *.
    destruct m as [| t]; cbn [move fires first_loaded].
    + (* a timer fires *)
      unfold fire. rewrite Ht. cbn [earliest timers listeners readyState started map].
      cbn [timer_id timer_due timer_handler].
      unfold reschedule. cbn [timer_id timer_due timer_handler timer_timeout].
      rewrite Z.eqb_refl.
      rewrite !filter_app, Hby, Hnot. cbn [filter by_timer start_cause negb].
      rewrite Nat.add_1_r, seq_S, map_app. cbn [map].
      rewrite app_nil_r.
      replace (t0 + (Z.of_nat (fires ms) + 1) * 1800000 + 1800000)
        with (t0 + (Z.of_nat (S (fires ms)) + 1) * 1800000) by lia.
      replace (t0 + Z.of_nat (1 + fires ms) * 1800000)
        with (t0 + (Z.of_nat (fires ms) + 1) * 1800000) by lia.
      destruct (first_loaded ms); repeat split; assumption.
    + (* parsing ends *)
      rewrite Nat.add_0_r. unfold contentLoaded. rewrite Hr.
      destruct (state =? "loading")%string eqn:Hload.
      * destruct (first_loaded ms) as [t' |] eqn:Hfirst.
        -- cbn [String.eqb Ascii.eqb Bool.eqb]. repeat split; assumption.
        -- rewrite Hload.
           cbn [timers listeners readyState started].
           rewrite Hl. cbn [filter fst snd map String.eqb Ascii.eqb Bool.eqb].
           rewrite !filter_app, Hby, Hnot.
           cbn [filter by_timer start_cause negb app].
           rewrite app_nil_r. repeat split; assumption.
      * rewrite Hload. repeat split; assumption.
Qed.

End Schedule.

(** The timer that fires is one of the active timers. *)
Lemma earliest_In (tms : list Timer) (tm : Timer) :
  earliest tms = Some tm -> In tm tms.
Proof.
  revert tm. induction tms as [| a rest IH]; intros tm H; simpl in H.
  - discriminate H.
  - destruct (earliest rest) as [tm' |].
    + destruct (timer_due tm' <? timer_due a); injection H as <-.
      * right. apply IH. reflexivity.
      * left. reflexivity.
    + injection H as <-. left. reflexivity.
Qed.

(** Rescheduling keeps ids, and touches only the timer that fired. *)
Lemma reschedule_id (id : Z) (tm : Timer) : timer_id (reschedule id tm) = timer_id tm.
Proof. unfold reschedule. destruct (timer_id tm =? id); reflexivity. Qed.

Lemma reschedule_others (id id0 : Z) (tms : list Timer) :
  Forall (fun tm => timer_id tm <> id0) tms ->
  Forall (fun tm => timer_id tm <> id0) (map (reschedule id) tms).
Proof.
  intros H. induction H as [| tm tms Htm _ IH]; simpl; constructor.
  - rewrite reschedule_id. exact Htm.
  - exact IH.
Qed.

Lemma reschedule_skips (id0 : Z) (tms : list Timer) :
  Forall (fun tm => timer_id tm <> id0) tms ->
  map (reschedule id0) tms = tms.
Proof.
  intros H. induction H as [| tm tms Htm _ IH]; simpl; [reflexivity |].
  rewrite IH. unfold reschedule.
  destruct (Z.eqb_spec (timer_id tm) id0); [contradiction | reflexivity].
Qed.

(** Calls made for an event are not calls of a timer. *)
Lemma listeners_not_caused_by (id : Z) (t : Z) (ls : list (string * Callback)) :
  filter (caused_by id)
    (map (fun l => {| start_time := t; start_cause := ByEvent "DOMContentLoaded";
                      start_callback := snd l |}) ls) = [].
Proof. induction ls as [| l ls IH]; simpl; [reflexivity | exact IH]. Qed.

Section AnyPage.
Context (cfg : Config) (pg0 : Page).

(** The script leaves its timer on the page, not yet fired. *)
Lemma timer_kept_after_main :
  fresh_timer_id pg0 -> timer_kept cfg pg0 0 (Slot603.main cfg pg0).
Proof.
  intros [Hids Hstarts].
  destruct (main_registers cfg pg0) as (Ht & _ & Hs & _). cbn zeta in *.
  split.
  - exists (timers pg0), []. rewrite Ht. unfold own_timer.
    replace (clock pg0 + (Z.of_nat 0 + 1) * 1800000) with (clock pg0 + 1800000) by lia.
    split; [reflexivity |]. split; [exact Hids | constructor].
  - rewrite Hs. destruct (readyState pg0 =? "loading")%string.
    + exact Hstarts.
    + rewrite filter_app, Hstarts. reflexivity.
Qed.

(** Firing the agent's timer moves it one period on and adds one call. *)
Lemma own_timer_rescheduled (n : nat) :
  reschedule (next_timer_id pg0) (own_timer cfg pg0 n) = own_timer cfg pg0 (S n).
Proof.
  unfold reschedule, own_timer. cbn [timer_id timer_handler timer_timeout timer_due].
  rewrite Z.eqb_refl. f_equal. lia.
Qed.

Lemma own_timer_untouched (id : Z) (n : nat) :
  id <> next_timer_id pg0 -> reschedule id (own_timer cfg pg0 n) = own_timer cfg pg0 n.
Proof.
  intros H. unfold reschedule, own_timer. cbn [timer_id].
  destruct (Z.eqb_spec (next_timer_id pg0) id) as [E | _]; [congruence | reflexivity].
Qed.

Lemma own_starts_S (n : nat) :
  own_starts cfg pg0 (S n) =
  (own_starts cfg pg0 n ++
   [{| start_time := timer_due (own_timer cfg pg0 n);
       start_cause := ByTimer (next_timer_id pg0);
       start_callback := Slot603.executeAgent cfg |}])%list.
Proof.
  unfold own_starts. rewrite seq_S, map_app. cbn [map own_timer timer_due].
  do 3 f_equal. lia.
Qed.

(** A move of the browser leaves the agent's timer on the page; it fires
    it once more, or not at all. *)
Lemma timer_kept_move (n : nat) (pg : Page) (m : Move) :
  timer_kept cfg pg0 n pg ->
  timer_kept cfg pg0 n (move pg m) \/ (m = Fire /\ timer_kept cfg pg0 (S n) (move pg m)).
Proof.
  intros [(before & after & Ht & Hb & Ha) Hs].
  destruct m as [| t]; cbn [move].
  - (* a timer fires: the agent's or another one *)
    unfold fire. destruct (earliest (timers pg)) as [tm |] eqn:E.
    2: { left. split; [eauto | exact Hs]. }
    apply earliest_In in E. rewrite Ht in E.
    cbn [timers started].
    destruct (Z.eq_dec (timer_id tm) (next_timer_id pg0)) as [Hid | Hid].
    + (* the agent's *)
      right. split; [reflexivity |].
      assert (Htm : tm = own_timer cfg pg0 n).
      { apply in_app_or in E. destruct E as [E | [E | E]].
        - rewrite Forall_forall in Hb. exfalso. exact (Hb tm E Hid).
        - symmetry. exact E.
        - rewrite Forall_forall in Ha. exfalso. exact (Ha tm E Hid). }
      subst tm. cbn [own_timer timer_id timer_handler].
      unfold timer_kept. cbn [timers started]. split.
      * exists before, after. rewrite Ht, map_app. cbn [map].
        rewrite !reschedule_skips by assumption.
        rewrite own_timer_rescheduled. repeat split; assumption.
      * rewrite filter_app, Hs. cbn [filter caused_by start_cause].
        rewrite Z.eqb_refl. symmetry. apply own_starts_S.
    + (* another one *)
      left. unfold timer_kept. cbn [timers started]. split.
      * exists (map (reschedule (timer_id tm)) before),
               (map (reschedule (timer_id tm)) after).
        rewrite Ht, map_app. cbn [map].
        rewrite own_timer_untouched by exact Hid.
        repeat split; [apply reschedule_others | apply reschedule_others]; assumption.
      * rewrite filter_app, Hs. cbn [filter caused_by start_cause].
        destruct (Z.eqb_spec (timer_id tm) (next_timer_id pg0)); [contradiction |].
        apply app_nil_r.
  - left. unfold contentLoaded.
    destruct (readyState pg =? "loading")%string; [| split; [eauto |]; exact Hs].
    split; cbn [timers started].
    + eauto.
    + rewrite filter_app, Hs, listeners_not_caused_by. apply app_nil_r.
Qed.

(** Through any moves of the browser the agent's timer stays on the page,
    and has fired at most as often as timers fired. *)
Lemma timer_kept_play (ms : list Move) :
  forall (n : nat) (pg : Page),
    timer_kept cfg pg0 n pg ->
    exists k : nat, (k <= fires ms)%nat /\ timer_kept cfg pg0 (n + k) (play ms pg).
Proof.
  induction ms as [| m ms IH]; intros n pg H.
  - exists 0%nat. rewrite Nat.add_0_r. split; [apply Nat.le_refl | exact H].
  - change (play (m :: ms) pg) with (play ms (move pg m)).
    destruct (timer_kept_move n pg m H) as [H' | [-> H']].
    + destruct (IH n _ H') as (k & Hk & Hkept). exists k. split; [| exact Hkept].
      destruct m; cbn [fires]; lia.
    + destruct (IH (S n) _ H') as (k & Hk & Hkept). exists (S k).
      replace (n + S k)%nat with (S n + k)%nat by lia.
      split; [cbn [fires]; lia | exact Hkept].
Qed.

End AnyPage.

(** C8. The script registers [executeAgent] with an interval timer whose
    delay is 30 * 60 * 1000 = 1800000 milliseconds, and arranges one call
    for page load: at once when the document is not loading, and as a
    DOMContentLoaded listener when it is.  Whatever the browser then does
    (any sequence of timer firings and end of parsing), and whatever else
    is on the page, the timer stays registered with the same handler and
    the same delay, and its k-th call is exactly k * 1800000 milliseconds
    after registration.  On a page of its own the timer makes one call per
    firing, without end, and there is exactly one call for page load once
    the page has loaded. *)
Theorem runs_at_load_and_every_30_minutes (cfg : Config) :
  let agent := Slot603.executeAgent cfg in
  30 * 60 * 1000 = 1800000 /\
  (forall pg0 : Page,
      let loading := (readyState pg0 =? "loading")%string in
      timers (Slot603.main cfg pg0) =
        (timers pg0 ++
         [{| timer_id := next_timer_id pg0; timer_handler := agent;
             timer_timeout := 1800000; timer_due := clock pg0 + 1800000 |}])%list /\
      listeners (Slot603.main cfg pg0) =
        (if loading then (listeners pg0 ++ [("DOMContentLoaded", agent)])%list
         else listeners pg0) /\
      started (Slot603.main cfg pg0) =
        (if loading then started pg0
         else (started pg0 ++
               [{| start_time := clock pg0; start_cause := ByScript;
                   start_callback := agent |}])%list)) /\
  (forall (pg0 : Page) (ms : list Move),
      fresh_timer_id pg0 ->
      exists n : nat,
        (n <= fires ms)%nat /\
        timer_kept cfg pg0 n (play ms (Slot603.main cfg pg0))) /\
  (forall (state : string) (t0 : Z) (ms : list Move),
      let pg := play ms (Slot603.main cfg (blank state t0)) in
      timers pg =
        [{| timer_id := 1; timer_handler := agent; timer_timeout := 1800000;
            timer_due := t0 + (Z.of_nat (fires ms) + 1) * 1800000 |}] /\
      filter by_timer (started pg) =
        map (fun k => {| start_time := t0 + Z.of_nat k * 1800000;
                         start_cause := ByTimer 1; start_callback := agent |})
            (seq 1 (fires ms)) /\
      filter (fun s => negb (by_timer s)) (started pg) =
        (if (state =? "loading")%string then
           match first_loaded ms with
           | Some t => [{| start_time := t; start_cause := ByEvent "DOMContentLoaded";
                           start_callback := agent |}]
           | None => []
           end
         else [{| start_time := t0; start_cause := ByScript; start_callback := agent |}])).
Proof.
  cbn zeta. split; [reflexivity |]. split; [| split].
  - intros pg0. destruct (main_registers cfg pg0) as (Ht & Hl & Hs & _).
    repeat split; assumption.
  - intros pg0 ms Hfresh.
    destruct (timer_kept_play cfg pg0 ms 0 _ (timer_kept_after_main cfg pg0 Hfresh))
      as (k & Hk & Hkept).
    exists k. split; assumption.
  - intros state t0 ms.
    destruct (main_registers cfg (blank state t0)) as (Ht1 & Hl1 & Hs1 & Hr1 & _).
    destruct (schedule_invariant (Slot603.executeAgent cfg) state t0
                (Slot603.main cfg (blank state t0)) Ht1 Hl1 Hs1 Hr1 ms)
      as (Ht & _ & _ & Hby & Hnot).
    repeat split; assumption.
Qed.

(** The same, on the page where the other agent has registered first. *)
Lemma runs_at_load_and_every_30_minutes_witness :
  let pg0 := Netpro.main Netpro.CONFIG (blank "loading" 0) in
  let ms := [Fire; Loaded 250; Fire; Fire] in
  fresh_timer_id pg0 /\
  exists n : nat,
    (n <= fires ms)%nat /\
    timer_kept Slot603.CONFIG pg0 n (play ms (Slot603.main Slot603.CONFIG pg0)).
Proof.
  cbn zeta.
  assert (Hfresh : fresh_timer_id (Netpro.main Netpro.CONFIG (blank "loading" 0))).
  { split; [| reflexivity]. repeat constructor. discriminate. }
  split; [exact Hfresh |].
  exact (proj1 (proj2 (proj2 (runs_at_load_and_every_30_minutes Slot603.CONFIG)))
           _ [Fire; Loaded 250; Fire; Fire] Hfresh).
Defined.

(** ** What a call writes to the console *)

(** X1. [sendReport] writes exactly one line, after its request: at level
    log when the response is ok, a warning with the status code when it is
    not, an error with the thrown value when the request was rejected.
    The line names the brand and the URL. *)
Theorem sendReport_logs_once (cfg : Config) (data : ReportData.t) (url : string)
    (W : Type) (env : Env W) (w : W) :
  let o := fst (env _ (Fetch url (post_json data)) w) in
  trace (run env (Slot603.sendReport cfg data url) w) =
  [Item_fetch url (post_json data) o;
   match o with
   | Fulfilled response =>
       if Response.ok response then
         Item_console Log ("[" ++ brand cfg ++ "] Report sent successfully to " ++ url) []
       else
         Item_console Warn ("[" ++ brand cfg ++ "] Failed to send report to " ++ url ++ ":")
           [VNumber (Response.status response)]
   | Rejected reason =>
       Item_console Error ("[" ++ brand cfg ++ "] Error sending report to " ++ url ++ ":")
         [VError reason]
   end].
Proof.
  cbn zeta. destruct (sendReport_run cfg env data url w) as [w' E].
  rewrite E. reflexivity.
Qed.

(** A text starts with itself. *)
Lemma prefix_append (a b : string) : prefix a (a ++ b) = true.
Proof.
  induction a as [| c a IH]; simpl.
  - destruct b; reflexivity.
  - destruct (ascii_dec c c) as [_ | H]; [exact IH | contradiction].
Qed.

(** A message built as the code builds it carries the brand tag. *)
Lemma tagged_message (b rest : string) :
  prefix ("[" ++ b ++ "] ") ("[" ++ b ++ "] " ++ rest) = true.
Proof.
  rewrite <- !append_assoc. rewrite append_assoc. apply prefix_append.
Qed.

(** X2. Every line a cycle writes to the console starts with the brand in
    brackets, so the lines of one agent can be told from any other
    output. *)
Theorem console_lines_carry_brand (cfg : Config) (W : Type) (env : Env W) (w : W) :
  Forall (fun line => prefix ("[" ++ brand cfg ++ "] ") (snd (fst line)) = true)
         (console_lines (trace (run env (Slot603.executeAgent cfg) w))).
Proof.
  destruct (executeAgent_run cfg env w) as (hostname & now & o1 & o2 & w' & E).
  rewrite E. cbn [trace]. unfold cycle, attempt, attempt_line, cycle_succeeded, cycle_failed.
  destruct o1 as [[[] ? ?] | ?], o2 as [[[] ? ?] | ?];
    cbn [succeeded Response.ok app console_lines];
    repeat constructor; cbn [fst snd]; apply tagged_message.
Qed.

(** X3. Every cycle writes the whole record, API key included, to the
    console before it makes any request; every request of the cycle
    carries that same record, and from then on the cycle reads neither the
    host name nor the clock again. *)
Theorem record_logged_then_sent (cfg : Config) (W : Type) (env : Env W) (w : W) :
  let tr := trace (run env (Slot603.executeAgent cfg) w) in
  exists (data : ReportData.t) (before after : list Item),
    tr = (before ++ record_line cfg data :: after)%list /\
    deliveries before = [] /\
    deliveries after <> [] /\
    Forall (fun d => request d = post_json data) (deliveries after) /\
    hostname_reads after = [] /\ clock_reads after = [] /\
    ReportData.api_key data = apiKey cfg.
Proof.
  cbn zeta.
  destruct (executeAgent_run cfg env w) as (hostname & now & o1 & o2 & w' & E).
  rewrite E. cbn [trace].
  exists (report cfg hostname now),
    [Item_console Log ("[" ++ brand cfg ++ "] Domain Monitor Agent starting...") [];
     Item_hostname hostname; Item_date now].
  eexists. split; [reflexivity |]. split; [reflexivity |].
  unfold attempt, attempt_line, cycle_succeeded, cycle_failed.
  destruct o1 as [[[] ? ?] | ?], o2 as [[[] ? ?] | ?];
    cbn [succeeded Response.ok app deliveries hostname_reads clock_reads];
    (split; [discriminate |]); (split; [repeat constructor |]);
    repeat split.
Qed.

(** X4. A cycle writes one warning or error for each request that failed,
    and one more error when every request failed; a cycle whose first
    request succeeds writes none. *)
Theorem alarms_count_failures (cfg : Config) (W : Type) (env : Env W) (w : W) :
  let tr := trace (run env (Slot603.executeAgent cfg) w) in
  let failed := fun d : Delivery => negb (succeeded (outcome d)) in
  length (filter is_alarm tr) =
  (length (filter failed (deliveries tr))
   + (if forallb failed (deliveries tr) then 1 else 0))%nat.
Proof.
  cbn zeta.
  destruct (executeAgent_run cfg env w) as (hostname & now & o1 & o2 & w' & E).
  rewrite E. cbn [trace].
  unfold cycle, attempt, attempt_line, cycle_succeeded, cycle_failed.
  destruct o1 as [[[] ? ?] | ?], o2 as [[[] ? ?] | ?]; reflexivity.
Qed.

(** ** Cycles one after the other *)

(** The projections of a history, over two histories on end. *)
Lemma deliveries_app (a b : list Item) :
  deliveries (a ++ b) = (deliveries a ++ deliveries b)%list.
Proof.
  induction a as [| [] a IH]; cbn [app deliveries]; rewrite ?IH; reflexivity.
Qed.

Lemma hostname_reads_app (a b : list Item) :
  hostname_reads (a ++ b) = (hostname_reads a ++ hostname_reads b)%list.
Proof.
  induction a as [| [] a IH]; cbn [app hostname_reads]; rewrite ?IH; reflexivity.
Qed.

Lemma clock_reads_app (a b : list Item) :
  clock_reads (a ++ b) = (clock_reads a ++ clock_reads b)%list.
Proof.
  induction a as [| [] a IH]; cbn [app clock_reads]; rewrite ?IH; reflexivity.
Qed.

(** X5. Any number of cycles run one after the other completes normally.
    Each cycle reads the host name and the clock anew and starts again
    with the primary URL, whatever the cycles before it met: the requests
    are those of the first cycle, then those of the second, and so on. *)
Theorem cycles_in_a_row (cfg : Config) (n : nat) (W : Type) (env : Env W) (w : W) :
  let r := run env (in_a_row n (Slot603.executeAgent cfg)) w in
  exists told : list Told,
    length told = n /\
    completion r = Normal tt /\
    hostname_reads (trace r) = map told_hostname told /\
    clock_reads (trace r) = map told_now told /\
    deliveries (trace r) = concat (map (cycle_requests cfg) told).
Proof.
  cbn zeta. revert w. induction n as [| n IH]; intros w.
  - exists []. repeat split.
  - cbn [in_a_row]. rewrite run_bind.
    destruct (executeAgent_run cfg env w) as (hostname & now & o1 & o2 & w' & E).
    rewrite E. cbn [completion world trace].
    destruct (IH w') as (told & Hlen & Hdone & Hh & Ht & Hd).
    exists ({| told_hostname := hostname; told_now := now;
               told_primary := o1; told_fallback := o2 |} :: told).
    cbn [length map concat].
    rewrite hostname_reads_app, clock_reads_app, deliveries_app.
    rewrite cycle_hostname_reads, cycle_clock_reads, cycle_deliveries, Hh, Ht, Hd, Hlen.
    repeat split. exact Hdone.
Qed.

(** ** The page and the calls it starts *)

(** Every run of [executeAgent] completes normally. *)
Lemma executeAgent_never_throws (cfg : Config) : never_throws (Slot603.executeAgent cfg).
Proof.
  intros W env w.
  destruct (executeAgent_run cfg env w) as (hostname & now & o1 & o2 & w' & E).
  rewrite E. reflexivity.
Qed.

(** The script adds only its own function to a page. *)
Lemma all_callbacks_main (Q : Callback -> Prop) (cfg : Config) (pg : Page) :
  Q (Slot603.executeAgent cfg) ->
  all_callbacks Q pg -> all_callbacks Q (Slot603.main cfg pg).
Proof.
  intros HQ (Hl & Ht & Hs).
  destruct (main_registers cfg pg) as (Et & El & Es & _). cbn zeta in *.
  unfold all_callbacks. rewrite Et, El, Es.
  destruct (readyState pg =? "loading")%string;
    repeat split; try assumption;
    apply Forall_app; split; try assumption; repeat constructor; exact HQ.
Qed.

(** The browser calls only functions the page holds. *)
Lemma all_callbacks_move (Q : Callback -> Prop) (pg : Page) (m : Move) :
  all_callbacks Q pg -> all_callbacks Q (move pg m).
Proof.
  intros (Hl & Ht & Hs). destruct m as [| t]; cbn [move].
  - unfold fire. destruct (earliest (timers pg)) as [tm |] eqn:E;
      [| repeat split; assumption].
    apply earliest_In in E.
    unfold all_callbacks. cbn [listeners timers started].
    split; [exact Hl |]. split.
    + rewrite Forall_forall in *. intros tm' Hin. apply in_map_iff in Hin.
      destruct Hin as (tm0 & <- & Hin0). unfold reschedule.
      destruct (timer_id tm0 =? timer_id tm); cbn [timer_handler]; apply Ht; exact Hin0.
    + apply Forall_app. split; [exact Hs |]. constructor; [| constructor].
      cbn [start_callback]. rewrite Forall_forall in Ht. apply Ht. exact E.
  - unfold contentLoaded. destruct (readyState pg =? "loading")%string;
      [| repeat split; assumption].
    unfold all_callbacks. cbn [listeners timers started].
    split; [exact Hl |]. split; [exact Ht |].
    apply Forall_app. split; [exact Hs |].
    rewrite Forall_forall in *. intros s Hin. apply in_map_iff in Hin.
    destruct Hin as (l & <- & Hin0). cbn [start_callback].
    apply filter_In in Hin0. apply Hl. exact (proj1 Hin0).
Qed.

Lemma all_callbacks_play (Q : Callback -> Prop) (ms : list Move) :
  forall pg : Page, all_callbacks Q pg -> all_callbacks Q (play ms pg).
Proof.
  induction ms as [| m ms IH]; intros pg H; [exact H |].
  change (play (m :: ms) pg) with (play ms (move pg m)).
  apply IH. apply all_callbacks_move. exact H.
Qed.

(** X6. On a page whose other functions do not throw, no call the page
    ever starts throws once the file has run: whether made by the script,
    for the end of parsing or by a timer, and whatever the network does,
    each call completes normally. *)
Theorem page_never_sees_a_throw (c1 c2 : Config) (pg0 : Page) (ms : list Move) :
  all_callbacks never_throws pg0 ->
  Forall (fun s => never_throws (start_callback s))
         (started (play ms (slot603_js c1 c2 pg0))).
Proof.
  intros H.
  assert (H1 : all_callbacks never_throws (Slot603.main c1 pg0)).
  { apply all_callbacks_main; [apply executeAgent_never_throws | exact H]. }
  assert (H2 : all_callbacks never_throws (slot603_js c1 c2 pg0)).
  { unfold slot603_js. change (Netpro.main c2) with (Slot603.main c2).
    apply all_callbacks_main; [apply executeAgent_never_throws | exact H1]. }
  exact (proj2 (proj2 (all_callbacks_play never_throws ms _ H2))).
Qed.

Lemma page_never_sees_a_throw_witness :
  all_callbacks never_throws (blank "loading" 0) /\
  Forall (fun s => never_throws (start_callback s))
         (started (play [Fire; Loaded 40; Fire]
                     (slot603_js Slot603.CONFIG Netpro.CONFIG (blank "loading" 0)))).
Proof.
  assert (H : all_callbacks never_throws (blank "loading" 0)).
  { repeat split; constructor. }
  split; [exact H |].
  exact (page_never_sees_a_throw Slot603.CONFIG Netpro.CONFIG (blank "loading" 0)
           [Fire; Loaded 40; Fire] H).
Defined.

(** ** Both agents on one page *)

Section TwoTimers.
Context (a1 a2 : Callback) (state : string) (t0 : Z) (pg1 : Page).

(** A page with two timers of the same delay registered at [t0], and two
    functions called at once or waiting for the end of parsing. *)
Hypothesis timers2 :
  timers pg1 =
    [{| timer_id := 1; timer_handler := a1; timer_timeout := 1800000;
        timer_due := t0 + 1800000 |};
     {| timer_id := 2; timer_handler := a2; timer_timeout := 1800000;
        timer_due := t0 + 1800000 |}].
Hypothesis listeners2 :
  listeners pg1 =
    (if (state =? "loading")%string
     then [("DOMContentLoaded", a1); ("DOMContentLoaded", a2)] else []).
Hypothesis started2 :
  started pg1 =
    (if (state =? "loading")%string then []
     else [{| start_time := t0; start_cause := ByScript; start_callback := a1 |};
           {| start_time := t0; start_cause := ByScript; start_callback := a2 |}]).
Hypothesis readyState2 : readyState pg1 = state.

(** The two timers take turns, the first registered going first. *)
Lemma two_timers_invariant (ms : list Move) :
  let loading := (state =? "loading")%string in
  let pg := play ms pg1 in
  exists n1 n2 : nat,
    (n1 + n2 = fires ms)%nat /\ (n1 = n2 \/ n1 = S n2) /\
    timers pg =
      [{| timer_id := 1; timer_handler := a1; timer_timeout := 1800000;
          timer_due := t0 + (Z.of_nat n1 + 1) * 1800000 |};
       {| timer_id := 2; timer_handler := a2; timer_timeout := 1800000;
          timer_due := t0 + (Z.of_nat n2 + 1) * 1800000 |}] /\
    listeners pg =
      (if loading then [("DOMContentLoaded", a1); ("DOMContentLoaded", a2)] else []) /\
    readyState pg =
      (if loading then
         match first_loaded ms with Some _ => "interactive" | None => state end
       else state) /\
    filter (caused_by 1) (started pg) =
      map (fun k => {| start_time := t0 + Z.of_nat k * 1800000;
                       start_cause := ByTimer 1; start_callback := a1 |}) (seq 1 n1) /\
    filter (caused_by 2) (started pg) =
      map (fun k => {| start_time := t0 + Z.of_nat k * 1800000;
                       start_cause := ByTimer 2; start_callback := a2 |}) (seq 1 n2) /\
    filter (fun s => negb (by_timer s)) (started pg) =
      (if loading then
         match first_loaded ms with
         | Some t =>
             [{| start_time := t; start_cause := ByEvent "DOMContentLoaded";
                 start_callback := a1 |};
              {| start_time := t; start_cause := ByEvent "DOMContentLoaded";
                 start_callback := a2 |}]
         | None => []
         end
       else [{| start_time := t0; start_cause := ByScript; start_callback := a1 |};
             {| start_time := t0; start_cause := ByScript; start_callback := a2 |}]).
Proof.
  cbn zeta. induction ms as [| m ms IH] using rev_ind.
  - exists 0%nat, 0%nat. unfold play. cbn [fold_left fires first_loaded seq map].
    rewrite timers2, listeners2, started2, readyState2.
    replace (t0 + (Z.of_nat 0 + 1) * 1800000) with (t0 + 1800000) by lia.
    destruct (state =? "loading")%string; repeat split; left; reflexivity.
  - destruct IH as (n1 & n2 & Hsum & Hturn & Ht & Hl & Hr & H1 & H2 & Hnot).
    rewrite play_app, fires_app, first_loaded_app.
    set (pg := play ms pg1) in *.
    destruct m as [| t]; cbn [move fires first_loaded].
    + (* a timer fires *)
      unfold fire. rewrite Ht. cbn [earliest timer_due].
      destruct (Z.ltb_spec (t0 + (Z.of_nat n2 + 1) * 1800000)
                           (t0 + (Z.of_nat n1 + 1) * 1800000)) as [Hlt | Hge].
      * (* the second is due earlier: it is one firing behind *)
        assert (Hn : n1 = S n2) by lia.
        exists n1, (S n2).
        cbn [timers listeners readyState started map timer_id timer_due timer_handler].
        unfold reschedule. cbn [timer_id timer_due timer_handler timer_timeout Z.eqb Pos.eqb].
        rewrite !filter_app, H1, H2, Hnot.
        cbn [filter caused_by by_timer start_cause negb Z.eqb Pos.eqb].
        rewrite seq_S, map_app. cbn [map]. rewrite !app_nil_r.
        replace (t0 + (Z.of_nat n2 + 1) * 1800000 + 1800000)
          with (t0 + (Z.of_nat (S n2) + 1) * 1800000) by lia.
        replace (t0 + Z.of_nat (1 + n2) * 1800000)
          with (t0 + (Z.of_nat n2 + 1) * 1800000) by lia.
        split; [lia |]. split; [left; exact Hn |].
        destruct (first_loaded ms); repeat split; assumption.
      * (* both are due together: the first goes *)
        assert (Hn : n1 = n2) by lia.
        exists (S n1), n2.
        cbn [timers listeners readyState started map timer_id timer_due timer_handler].
        unfold reschedule. cbn [timer_id timer_due timer_handler timer_timeout Z.eqb Pos.eqb].
        rewrite !filter_app, H1, H2, Hnot.
        cbn [filter caused_by by_timer start_cause negb Z.eqb Pos.eqb].
        rewrite seq_S, map_app. cbn [map]. rewrite !app_nil_r.
        replace (t0 + (Z.of_nat n1 + 1) * 1800000 + 1800000)
          with (t0 + (Z.of_nat (S n1) + 1) * 1800000) by lia.
        replace (t0 + Z.of_nat (1 + n1) * 1800000)
          with (t0 + (Z.of_nat n1 + 1) * 1800000) by lia.
        split; [lia |]. split; [right; lia |].
        destruct (first_loaded ms); repeat split; assumption.
    + (* parsing ends *)
      exists n1, n2. rewrite Nat.add_0_r. unfold contentLoaded. rewrite Hr.
      split; [exact Hsum |]. split; [exact Hturn |].
      destruct (state =? "loading")%string eqn:Hload.
      * destruct (first_loaded ms) as [t' |] eqn:Hfirst.
        -- cbn [String.eqb Ascii.eqb Bool.eqb]. repeat split; assumption.
        -- rewrite Hload.
           cbn [timers listeners readyState started].
           rewrite Hl. cbn [filter fst snd map String.eqb Ascii.eqb Bool.eqb].
           rewrite !filter_app, H1, H2, Hnot.
           cbn [filter caused_by by_timer start_cause negb app].
           rewrite !app_nil_r. repeat split; assumption.
      * rewrite Hload. repeat split; assumption.
Qed.

End TwoTimers.

(** Each run of the script takes one timer id. *)
Lemma main_next_timer_id (cfg : Config) (pg : Page) :
  next_timer_id (Slot603.main cfg pg) = next_timer_id pg + 1.
Proof.
  unfold Slot603.main. destruct (readyState pg =? "loading")%string; reflexivity.
Qed.

(** The page the whole file leaves when it runs on a blank one. *)
Lemma slot603_js_registers (c1 c2 : Config) (state : string) (t0 : Z) :
  let a1 := Slot603.executeAgent c1 in
  let a2 := Netpro.executeAgent c2 in
  let loading := (state =? "loading")%string in
  let pg := slot603_js c1 c2 (blank state t0) in
  timers pg =
    [{| timer_id := 1; timer_handler := a1; timer_timeout := 1800000;
        timer_due := t0 + 1800000 |};
     {| timer_id := 2; timer_handler := a2; timer_timeout := 1800000;
        timer_due := t0 + 1800000 |}] /\
  listeners pg =
    (if loading then [("DOMContentLoaded", a1); ("DOMContentLoaded", a2)] else []) /\
  started pg =
    (if loading then []
     else [{| start_time := t0; start_cause := ByScript; start_callback := a1 |};
           {| start_time := t0; start_cause := ByScript; start_callback := a2 |}]) /\
  readyState pg = state.
Proof.
  cbn zeta. unfold slot603_js.
  change (Netpro.main c2) with (Slot603.main c2).
  change (Netpro.executeAgent c2) with (Slot603.executeAgent c2).
  destruct (main_registers c1 (blank state t0)) as (Et1 & El1 & Es1 & Er1 & Ec1).
  pose proof (main_next_timer_id c1 (blank state t0)) as En1.
  destruct (main_registers c2 (Slot603.main c1 (blank state t0)))
    as (Et2 & El2 & Es2 & Er2 & _).
  cbn zeta in *.
  rewrite Et2, El2, Es2, Er2, Et1, El1, Es1, Er1, Ec1, En1.
  cbn [blank readyState clock listeners timers started next_timer_id app Z.add Pos.add].
  destruct (state =? "loading")%string; repeat split.
Qed.

(** X7. When the whole file runs on one page, both agents are called once
    for page load, slot603 first (at once, or at the end of parsing when
    the document was loading), and both timers then run with the same
    period: the k-th timer call of either agent is k * 1800000
    milliseconds after the file ran, and the timers take turns, slot603
    first, so that after any number of firings their counts differ by at
    most one. *)
Theorem both_agents_take_turns (c1 c2 : Config) (state : string) (t0 : Z)
    (ms : list Move) :
  let a1 := Slot603.executeAgent c1 in
  let a2 := Netpro.executeAgent c2 in
  let pg := play ms (slot603_js c1 c2 (blank state t0)) in
  exists n1 n2 : nat,
    (n1 + n2 = fires ms)%nat /\ (n1 = n2 \/ n1 = S n2) /\
    timers pg =
      [{| timer_id := 1; timer_handler := a1; timer_timeout := 1800000;
          timer_due := t0 + (Z.of_nat n1 + 1) * 1800000 |};
       {| timer_id := 2; timer_handler := a2; timer_timeout := 1800000;
          timer_due := t0 + (Z.of_nat n2 + 1) * 1800000 |}] /\
    filter (caused_by 1) (started pg) =
      map (fun k => {| start_time := t0 + Z.of_nat k * 1800000;
                       start_cause := ByTimer 1; start_callback := a1 |}) (seq 1 n1) /\
    filter (caused_by 2) (started pg) =
      map (fun k => {| start_time := t0 + Z.of_nat k * 1800000;
                       start_cause := ByTimer 2; start_callback := a2 |}) (seq 1 n2) /\
    filter (fun s => negb (by_timer s)) (started pg) =
      (if (state =? "loading")%string then
         match first_loaded ms with
         | Some t =>
             [{| start_time := t; start_cause := ByEvent "DOMContentLoaded";
                 start_callback := a1 |};
              {| start_time := t; start_cause := ByEvent "DOMContentLoaded";
                 start_callback := a2 |}]
         | None => []
         end
       else [{| start_time := t0; start_cause := ByScript; start_callback := a1 |};
             {| start_time := t0; start_cause := ByScript; start_callback := a2 |}]).
Proof.
  cbn zeta.
  destruct (slot603_js_registers c1 c2 state t0) as (Et & El & Es & Er).
  destruct (two_timers_invariant (Slot603.executeAgent c1) (Netpro.executeAgent c2)
              state t0 (slot603_js c1 c2 (blank state t0)) Et El Es Er ms)
    as (n1 & n2 & Hsum & Hturn & Ht & _ & _ & H1 & H2 & Hnot).
  exists n1, n2. repeat split; assumption.
Qed.

(** ** Reading the request body back *)

(** A quoted string in front of a text, with its quotes in sight. *)
Lemma QuoteJSONString_append (s tail : string) :
  JS.QuoteJSONString s ++ tail =
  String JS.quoteChar (JS.quoteJSONBody s ++ String JS.quoteChar tail).
Proof.
  unfold JS.QuoteJSONString. cbn [append]. rewrite append_assoc. reflexivity.
Qed.

Lemma length_append (a b : string) :
  String.length (a ++ b) = (String.length a + String.length b)%nat.
Proof. induction a as [| c a IH]; simpl; [reflexivity | rewrite IH; reflexivity]. Qed.

(** A text of members is at least as long as their number. *)
Lemma stringifyMembers_length (ps : list (string * string)) :
  (length ps <= String.length (JS.stringifyMembers ps))%nat.
Proof.
  induction ps as [| [k v] ps IH]; [apply Nat.le_0_l |].
  destruct ps as [| p ps].
  - cbn [JS.stringifyMembers length]. rewrite QuoteJSONString_append. cbn [String.length]. lia.
  - change (JS.stringifyMembers ((k, v) :: p :: ps))
      with (JS.QuoteJSONString k ++ ":" ++ JS.QuoteJSONString v ++ ","
              ++ JS.stringifyMembers (p :: ps)).
    rewrite !length_append. cbn [length String.length] in *. lia.
Qed.

(** One member reads back, whatever follows it. *)
Lemma member_reads_back (k v tail : string) :
  JS.readJSONString (JS.quoteJSONBody k ++ String JS.quoteChar
    (":" ++ JS.QuoteJSONString v ++ tail)) =
  Some (k, String ":" (String JS.quoteChar
             (JS.quoteJSONBody v ++ String JS.quoteChar tail))).
Proof.
  rewrite readJSONString_quoted. cbn [append]. rewrite QuoteJSONString_append. reflexivity.
Qed.

(** The members of an object read back as they were written. *)
Lemma members_stringify (ps : list (string * string)) :
  ps <> [] ->
  forall (fuel : nat) (rest : string),
    (length ps <= fuel)%nat ->
    JSONRead.members fuel (JS.stringifyMembers ps ++ String "}" rest) = Some (ps, rest).
Proof.
  induction ps as [| [k v] ps IH]; intros Hne fuel rest Hfuel; [contradiction |].
  destruct fuel as [| fuel]; [cbn [length] in Hfuel; lia |].
  destruct ps as [| p ps].
  - cbn [JS.stringifyMembers]. rewrite !append_assoc, QuoteJSONString_append.
    cbn [JSONRead.members]. change (Ascii.eqb JS.quoteChar JS.quoteChar) with true. cbv iota.
    rewrite member_reads_back.
    change (Ascii.eqb JS.quoteChar JS.quoteChar) with true. cbv iota.
    rewrite readJSONString_quoted. reflexivity.
  - change (JS.stringifyMembers ((k, v) :: p :: ps))
      with (JS.QuoteJSONString k ++ ":" ++ JS.QuoteJSONString v ++ ","
              ++ JS.stringifyMembers (p :: ps)).
    rewrite !append_assoc, QuoteJSONString_append.
    cbn [JSONRead.members]. change (Ascii.eqb JS.quoteChar JS.quoteChar) with true. cbv iota.
    rewrite member_reads_back.
    change (Ascii.eqb JS.quoteChar JS.quoteChar) with true. cbv iota.
    rewrite readJSONString_quoted. cbn [append].
    rewrite IH; [reflexivity | discriminate | cbn [length] in *; lia].
Qed.

(** An object of string members reads back as it was written. *)
Lemma object_stringify (ps : list (string * string)) :
  JSONRead.object (JS.stringifyObject ps) = Some ps.
Proof.
  destruct ps as [| p ps]; [reflexivity |].
  unfold JS.stringifyObject. cbn [append].
  pose proof (stringifyMembers_length (p :: ps)) as Hlen.
  pose proof (members_stringify (p :: ps) ltac:(discriminate)
                (String.length (JS.stringifyMembers (p :: ps) ++ "}")) EmptyString) as Hm.
  rewrite length_append in Hm. specialize (Hm ltac:(lia)).
  rewrite <- length_append in Hm.
  destruct p as [k v].
  assert (Hhead : exists tail, JS.stringifyMembers ((k, v) :: ps) ++ "}" =
                               String JS.quoteChar tail).
  { destruct ps as [| q ps].
    - cbn [JS.stringifyMembers]. rewrite !append_assoc, QuoteJSONString_append.
      eexists; reflexivity.
    - change (JS.stringifyMembers ((k, v) :: q :: ps))
        with (JS.QuoteJSONString k ++ ":" ++ JS.QuoteJSONString v ++ ","
                ++ JS.stringifyMembers (q :: ps)).
      rewrite !append_assoc, QuoteJSONString_append. eexists; reflexivity. }
  destruct Hhead as [tail Hhead]. rewrite Hhead in *.
  unfold JSONRead.object.
  change (String.length (String JS.quoteChar tail)) with (S (String.length tail)) in *.
  cbv iota beta. rewrite Hm. reflexivity.
Qed.

(** A host name with a quote, a backslash and a line feed in it. *)
Example object_reads_back_escapes :
  let host := String JS.quoteChar (String JS.backslash (String "010"%char "x")) in
  JSONRead.object (JS.stringifyObject [("domain", host); ("brand", "b")]) =
    Some [("domain", host); ("brand", "b")] /\
  JSONRead.object "{" = None /\
  JSONRead.object (String "{" (String JS.quoteChar "a}")) = None.
Proof. vm_compute. repeat split. Qed.

(** X8. Whatever characters the fields of the record contain (quotes,
    backslashes or control characters in a host name), the body
    [sendReport] sends is a JSON object that reads back as the seven
    members of the record, in the order brand, domain, expired, status,
    kategori, catatan, api_key. *)
Theorem request_body_reads_back (cfg : Config) (data : ReportData.t) (url : string)
    (W : Type) (env : Env W) (w : W) :
  exists d : Delivery,
    deliveries (trace (run env (Slot603.sendReport cfg data url) w)) = [d] /\
    to d = url /\
    JSONRead.object (RequestInit.body (request d)) =
    Some [("brand", ReportData.brand data); ("domain", ReportData.domain data);
          ("expired", ReportData.expired data); ("status", ReportData.status data);
          ("kategori", ReportData.kategori data); ("catatan", ReportData.catatan data);
          ("api_key", ReportData.api_key data)].
Proof.
  destruct (sendReport_run cfg env data url w) as [w' E]. rewrite E.
  cbn [trace].
  exists {| to := url; request := post_json data;
            outcome := fst (env _ (Fetch url (post_json data)) w) |}.
  split.
  - unfold attempt, attempt_line.
    destruct (fst (env _ (Fetch url (post_json data)) w)) as [[[] ? ?] | ?]; reflexivity.
  - split; [reflexivity |]. cbn [request post_json RequestInit.body].
    unfold JSON_stringify. rewrite object_stringify. reflexivity.
Qed.

(** ** What stays on the page *)

(** The browser changes only when a timer is due next. *)
Lemma move_keeps_registrations (pg : Page) (m : Move) :
  map registration (timers (move pg m)) = map registration (timers pg) /\
  listeners (move pg m) = listeners pg.
Proof.
  destruct m as [| t]; cbn [move].
  - unfold fire. destruct (earliest (timers pg)) as [tm |]; [| split; reflexivity].
    cbn [timers listeners]. split; [| reflexivity].
    rewrite map_map. apply map_ext. intros tm'. unfold reschedule, registration.
    destruct (timer_id tm' =? timer_id tm); reflexivity.
  - unfold contentLoaded. destruct (readyState pg =? "loading")%string; split; reflexivity.
Qed.

Lemma play_keeps_registrations (ms : list Move) :
  forall pg : Page,
    map registration (timers (play ms pg)) = map registration (timers pg) /\
    listeners (play ms pg) = listeners pg.
Proof.
  induction ms as [| m ms IH]; intros pg; [split; reflexivity |].
  change (play (m :: ms) pg) with (play ms (move pg m)).
  destruct (IH (move pg m)) as [Et El].
  destruct (move_keeps_registrations pg m) as [Et' El'].
  rewrite Et, El, Et', El'. split; reflexivity.
Qed.

(** X9. Nothing is ever taken off the page.  On any page, after the
    script has run and the browser has made any moves, the page holds the
    timers it held before, with their ids, handlers and delays, followed
    by the agent's timer with delay 1800000; and the listeners it held
    before, followed by the agent's when the document was loading. *)
Theorem registrations_only_grow (cfg : Config) (pg0 : Page) (ms : list Move) :
  let agent := Slot603.executeAgent cfg in
  let pg := play ms (Slot603.main cfg pg0) in
  map registration (timers pg) =
    (map registration (timers pg0) ++ [(next_timer_id pg0, agent, 1800000)])%list /\
  listeners pg =
    (listeners pg0 ++
     (if (readyState pg0 =? "loading")%string then [("DOMContentLoaded", agent)] else []))%list.
Proof.
  cbn zeta.
  destruct (play_keeps_registrations ms (Slot603.main cfg pg0)) as [Et El].
  destruct (main_registers cfg pg0) as (Et0 & El0 & _). cbn zeta in *.
  rewrite Et, El, Et0, El0, map_app. split; [reflexivity |].
  destruct (readyState pg0 =? "loading")%string; [reflexivity | symmetry; apply app_nil_r].
Qed.

(** ** Telling the agents apart *)

(** Every request of a cycle carries the record of that cycle. *)
Lemma cycle_requests_carry_record (cfg : Config) (hostname : string) (now : Z)
    (o1 o2 : FetchOutcome) (d : Delivery) :
  In d (deliveries (cycle cfg hostname now o1 o2)) ->
  request d = post_json (report cfg hostname now).
Proof.
  rewrite cycle_deliveries. destruct (succeeded o1); cbn [In].
  - intros [<- | []]. reflexivity.
  - intros [<- | [<- | []]]; reflexivity.
Qed.

(** X10. Agents with different brands never send the same body: whatever
    host names, times and responses the two see, a request of one differs
    in its body from every request of the other, so the receiver can
    attribute each report. *)
Theorem agents_told_apart (c1 c2 : Config) (W1 W2 : Type)
    (env1 : Env W1) (env2 : Env W2) (w1 : W1) (w2 : W2) (d1 d2 : Delivery) :
  brand c1 <> brand c2 ->
  In d1 (deliveries (trace (run env1 (Slot603.executeAgent c1) w1))) ->
  In d2 (deliveries (trace (run env2 (Netpro.executeAgent c2) w2))) ->
  RequestInit.body (request d1) <> RequestInit.body (request d2).
Proof.
  intros Hbrand H1 H2.
  change (Netpro.executeAgent c2) with (Slot603.executeAgent c2) in H2.
  destruct (executeAgent_run c1 env1 w1) as (h1 & t1 & a1 & b1 & w1' & E1).
  destruct (executeAgent_run c2 env2 w2) as (h2 & t2 & a2 & b2 & w2' & E2).
  rewrite E1 in H1. rewrite E2 in H2. cbn [trace] in H1, H2.
  apply cycle_requests_carry_record in H1. apply cycle_requests_carry_record in H2.
  rewrite H1, H2. cbn [post_json RequestInit.body]. intros Heq.
  apply JSON_stringify_injective in Heq.
  apply (f_equal ReportData.brand) in Heq. exact (Hbrand Heq).
Qed.

Lemma agents_told_apart_witness :
  let d1 := {| to := apiUrl Slot603.CONFIG;
               request := post_json (report Slot603.CONFIG "example.com" 1754006400000);
               outcome := http 200 |} in
  let d2 := {| to := apiUrl Netpro.CONFIG;
               request := post_json (report Netpro.CONFIG "example.com" 1754006400000);
               outcome := http 200 |} in
  brand Slot603.CONFIG <> brand Netpro.CONFIG /\
  RequestInit.body (request d1) <> RequestInit.body (request d2).
Proof.
  cbn zeta.
  assert (Hbrand : brand Slot603.CONFIG <> brand Netpro.CONFIG) by discriminate.
  split; [exact Hbrand |].
  apply (agents_told_apart Slot603.CONFIG Netpro.CONFIG World World scripted scripted
           (example_world [(http 200, 5)]) (example_world [(http 200, 5)]));
    [exact Hbrand | vm_compute; left; reflexivity | vm_compute; left; reflexivity].
Defined.
